(** * scripts/create-icon.py: PNG to multi-size Windows ICO

    A shallow embedding of the script [scripts/create-icon.py] and the
    properties of its conversion pipeline, its error boundary, its exit
    codes and its command-line path selection.

    The script is a thin wrapper around Pillow, [pathlib], the file system
    and standard output.  Those are not code of the repository: they are
    taken as an interface ([Platform]) and every theorem holds for all
    implementations of it.  A small simulated platform ([Sim]) instantiates
    the interface so that the script can be run on concrete worlds. *)

From Stdlib Require Import String Ascii ZArith List Bool Lia DecimalString.
Import ListNotations.
Open Scope string_scope.

(* ================================================================== *)
(** * Python values used by the script *)
(* ================================================================== *)

(** Classes of the exceptions that the script or its libraries raise.  All
    of them derive from [Exception]; [ModuleNotFoundError] derives from
    [ImportError]. *)
Inductive ExcClass :=
| ImportError
| ModuleNotFoundError
| IndexError
| ValueError
| OSError
| FileNotFoundError
| PermissionError
| UnidentifiedImageError
| UnicodeEncodeError.

(** An instance of [Exception]: its class and [str(e)]. *)
Record Error := mkError { err_class : ExcClass; err_str : string }.

(** [isinstance(e, ImportError)]. *)
Definition isinstance_ImportError (e : Error) : bool :=
  match err_class e with
  | ImportError | ModuleNotFoundError => true
  | _ => false
  end.

(** What a [raise] can carry in this script: an [Exception] instance, or
    the [SystemExit] of [sys.exit(code)], which is a [BaseException] but not
    an [Exception] and so passes through [except Exception]. *)
Inductive PyExn :=
| Exc (e : Error)
| SystemExit (code : Z).

Inductive Outcome (A : Type) :=
| Ret (a : A)
| Raise (x : PyExn).
Arguments Ret {A} a.
Arguments Raise {A} x.

(** The kinds of failure that the specification distinguishes. *)
Inductive FailureKind := SourceNotFound | DecodeError | EncodeError.

(** [Image.Resampling]. *)
Inductive Resampling := NEAREST | BOX | BILINEAR | HAMMING | BICUBIC | LANCZOS.

(** ** [pathlib] paths

    A path is its anchor (drive and root, empty for a relative path) and the
    components after it.  [parent] drops the last component and leaves a
    path without components as it is, as [PurePath.parent] does. *)
Record Path := mkPath { anchor : string; parts : list string }.

Definition parent (p : Path) : Path :=
  mkPath (anchor p) (removelast (parts p)).

(** [p / name] for a plain one-component [name] (the script only joins
    ["assets"] and two file names). *)
Definition joinpath (p : Path) (name : string) : Path :=
  mkPath (anchor p) (parts p ++ [name]).

Declare Scope path_scope.
Delimit Scope path_scope with path.
Notation "p // name" := (joinpath p name)
  (at level 40, left associativity) : path_scope.

(** ** Formatting *)

(** [f"{n}"] for an [int]. *)
Definition str_int (n : Z) : string := NilZero.string_of_int (Z.to_int n).

Definition newline : string := String (ascii_of_nat 10) EmptyString.

(* ================================================================== *)
(** * The platform: Pillow, pathlib, the file system, standard output *)
(* ================================================================== *)

(** A call either returns or raises an instance of [Exception] ([OSError],
    [ValueError], [UnidentifiedImageError], [UnicodeEncodeError], ...): none
    of them exits the interpreter. *)
Class Platform := {
  (** the state of the file system *)
  FS : Type;
  (** [PIL.Image.Image] with its attributes [mode] and [size] *)
  Image : Type;
  im_mode : Image -> string;
  im_size : Image -> Z * Z;
  (** [Path(s)] and [str(p)] *)
  Path_of : string -> Path;
  path_str : Path -> string;
  (** [f"{st_size / 1024:.1f}"]: the float division and its formatting *)
  format_kb : Z -> string;
  (** [print(line)]: the error it raises when standard output does not take
      the line (an encoding that lacks one of its characters, a closed
      stream), [None] when the line is written *)
  stdout_error : FS -> string -> option Error;
  (** [from PIL import Image] *)
  import_PIL : FS -> Error + unit;
  (** [p.exists()], which lets some [OSError]s through, and
      [p.stat().st_size] *)
  path_exists : FS -> Path -> Error + bool;
  path_stat_size : FS -> Path -> Error + Z;
  (** [Image.open(fp)], [im.convert(mode)], [im.resize(size, resample)] *)
  Image_open : FS -> string -> Error + Image;
  Image_convert : Image -> string -> Error + Image;
  Image_resize : Image -> Z * Z -> Resampling -> Error + Image;
  (** [im.save(fp, format=, sizes=, append_images=)]: the file system after
      the call and the error if one was raised (a failed save may still
      have left a partial file) *)
  Image_save : FS -> Image -> string -> string -> list (Z * Z) -> list Image
               -> FS * option Error
}.

(* ================================================================== *)
(** * The script *)
(* ================================================================== *)

Section Script.
Context {P : Platform}.

(** What a run does to the outside, in order.  [EvPrint] is a line that
    standard output took. *)
Inductive Event :=
| EvPrint (line : string)
| EvImport
| EvExists (p : Path)
| EvOpen (fp : string)
| EvConvert (im : Image) (mode : string)
| EvResize (im : Image) (size : Z * Z) (resample : Resampling)
| EvSave (im : Image) (fp format : string) (sizes : list (Z * Z))
         (append_images : list Image)
| EvStat (p : Path).

(** A computation runs on a file system and yields the file system after
    it, the events it performed and a value or a raised exception. *)
Record Res (A : Type) := mkRes {
  res_fs : FS;
  res_trace : list Event;
  res_val : Outcome A
}.
Arguments mkRes {A} _ _ _.
Arguments res_fs {A} _.
Arguments res_trace {A} _.
Arguments res_val {A} _.

Definition M (A : Type) : Type := FS -> Res A.

Definition ret {A} (a : A) : M A := fun fs => mkRes fs [] (Ret a).

Definition raise {A} (x : PyExn) : M A := fun fs => mkRes fs [] (Raise x).

Definition bind {A B} (m : M A) (k : A -> M B) : M B := fun fs =>
  let r := m fs in
  match res_val r with
  | Ret a =>
      let r' := k a (res_fs r) in
      mkRes (res_fs r') (res_trace r ++ res_trace r') (res_val r')
  | Raise x => mkRes (res_fs r) (res_trace r) (Raise x)
  end.

Notation "x <- m ;; k" := (bind m (fun x => k))
  (at level 61, m at next level, right associativity).
Notation "m ;; k" := (bind m (fun _ => k))
  (at level 61, right associativity).

(** [try: m  except Exception as e: handler e] *)
Definition try_except_Exception {A} (m : M A) (handler : Error -> M A) : M A :=
  fun fs =>
  let r := m fs in
  match res_val r with
  | Raise (Exc e) =>
      let r' := handler e (res_fs r) in
      mkRes (res_fs r') (res_trace r ++ res_trace r') (res_val r')
  | _ => r
  end.

(** [try: m  except ImportError: handler] *)
Definition try_except_ImportError {A} (m : M A) (handler : M A) : M A :=
  fun fs =>
  let r := m fs in
  match res_val r with
  | Raise (Exc e) =>
      if isinstance_ImportError e then
        let r' := handler (res_fs r) in
        mkRes (res_fs r') (res_trace r ++ res_trace r') (res_val r')
      else r
  | _ => r
  end.

(** A call into the platform that reads the file system at most. *)
Definition call {A} (ev : Event) (f : FS -> Error + A) : M A := fun fs =>
  mkRes fs [ev] (match f fs with inr a => Ret a | inl e => Raise (Exc e) end).

(** [print(line)]: the line is written, or the error of standard output is
    raised and nothing is written. *)
Definition print (line : string) : M unit := fun fs =>
  match stdout_error fs line with
  | None => mkRes fs [EvPrint line] (Ret tt)
  | Some e => mkRes fs [] (Raise (Exc e))
  end.

Definition sys_exit {A} (code : Z) : M A := raise (SystemExit code).

(** [l[i]] *)
Definition getitem {A} (l : list A) (i : nat) : M A :=
  match nth_error l i with
  | Some a => ret a
  | None => raise (Exc (mkError IndexError "list index out of range"))
  end.

Definition do_import : M unit := call EvImport import_PIL.

Definition do_exists (p : Path) : M bool :=
  call (EvExists p) (fun fs => path_exists fs p).

Definition do_stat_size (p : Path) : M Z :=
  call (EvStat p) (fun fs => path_stat_size fs p).

Definition do_open (fp : string) : M Image :=
  call (EvOpen fp) (fun fs => Image_open fs fp).

Definition do_convert (im : Image) (mode : string) : M Image :=
  call (EvConvert im mode) (fun _ => Image_convert im mode).

Definition do_resize (im : Image) (size : Z * Z) (resample : Resampling)
  : M Image :=
  call (EvResize im size resample) (fun _ => Image_resize im size resample).

Definition do_save (im : Image) (fp format : string) (sizes : list (Z * Z))
    (append_images : list Image) : M unit := fun fs =>
  let '(fs', err) := Image_save fs im fp format sizes append_images in
  mkRes fs' [EvSave im fp format sizes append_images]
        (match err with None => Ret tt | Some e => Raise (Exc e) end).

(** ** [create_icon] *)

(** line 21 *)
Definition sizes : list (Z * Z) :=
  [(256, 256); (128, 128); (64, 64); (48, 48); (32, 32); (16, 16)]%Z.

(** lines 33-35: the loop over [sizes], appending to [icon_images] *)
Fixpoint resize_loop (img : Image) (todo : list (Z * Z))
    (icon_images : list Image) : M (list Image) :=
  match todo with
  | [] => ret icon_images
  | size :: todo' =>
      resized <- do_resize img size LANCZOS ;;
      resize_loop img todo' (icon_images ++ [resized])
  end.

(** [f'{w}x{h}'] *)
Definition fmt_size (s : Z * Z) : string :=
  let '(w, h) := s in str_int w ++ "x" ++ str_int h.

(** lines 24-52: the body of the [try] *)
Definition create_icon_body (png_path ico_path : string) : M bool :=
  img <- do_open png_path ;;
  img <- (if negb (im_mode img =? "RGBA")
          then do_convert img "RGBA"
          else ret img) ;;
  icon_images <- resize_loop img sizes [] ;;
  primary <- getitem icon_images 0 ;;
  do_save primary ico_path "ICO" sizes (skipn 1 icon_images) ;;
  print ("✅ Icon created successfully: " ++ ico_path) ;;
  print ("   Sizes included: " ++ String.concat ", " (map fmt_size sizes)) ;;
  st_size <- do_stat_size (Path_of ico_path) ;;
  print ("   File size: " ++ format_kb st_size ++ " KB") ;;
  ret true.

(** line 55 *)
Definition icon_error_msg (e : Error) : string :=
  "❌ Error creating icon: " ++ err_str e.

(** lines 17-56 *)
Definition create_icon (png_path ico_path : string) : M bool :=
  try_except_Exception
    (create_icon_body png_path ico_path)
    (fun e => print (icon_error_msg e) ;; ret false).

(** ** [main] *)

(** lines 60-62, for [__file__ = file] *)
Definition project_root (file : string) : Path :=
  parent (parent (Path_of file)).

Definition default_png (file : string) : Path :=
  (project_root file // "assets" // "app-logo-color.png")%path.

Definition default_ico (file : string) : Path :=
  (project_root file // "assets" // "app-icon.ico")%path.

(** lines 59-68: the two paths, for [sys.argv = argv] *)
Definition main_paths (file : string) (argv : list string)
  : M (Path * Path) :=
  let png_path := default_png file in
  let ico_path := default_ico file in
  png_path <- (if (1 <? length argv)%nat
               then a <- getitem argv 1 ;; ret (Path_of a)
               else ret png_path) ;;
  ico_path <- (if (2 <? length argv)%nat
               then a <- getitem argv 2 ;; ret (Path_of a)
               else ret ico_path) ;;
  ret (png_path, ico_path).

(** line 72 *)
Definition not_found_msg (png_path : Path) : string :=
  "❌ Error: PNG file not found: " ++ path_str png_path.

Definition usage_msg : string :=
  newline ++ "Usage: python create-icon.py [input.png] [output.ico]".

(** lines 70-85: validation, conversion, exit *)
Definition main_run (png_path ico_path : Path) : M unit :=
  found <- do_exists png_path ;;
  (if negb found
   then print (not_found_msg png_path) ;;
        print usage_msg ;;
        sys_exit 1%Z
   else ret tt) ;;
  print "🎨 Creating Windows icon..." ;;
  print ("   Source: " ++ path_str png_path) ;;
  print ("   Output: " ++ path_str ico_path) ;;
  print "" ;;
  ok <- create_icon (path_str png_path) (path_str ico_path) ;;
  if ok then sys_exit 0%Z else sys_exit 1%Z.

(** lines 58-85 *)
Definition main (file : string) (argv : list string) : M unit :=
  paths <- main_paths file argv ;;
  main_run (fst paths) (snd paths).

(** lines 10-15 and 87-88: the import guard, then [main()] *)
Definition script (file : string) (argv : list string) : M unit :=
  try_except_ImportError
    do_import
    (print "Error: Pillow library not found" ;;
     print "Install with: pip install Pillow" ;;
     sys_exit 1%Z) ;;
  main file argv.

(** The exit status of the interpreter: that of [sys.exit], 0 when the
    script runs to its end, 1 after an uncaught exception. *)
Definition exit_code {A} (o : Outcome A) : Z :=
  match o with
  | Ret _ => 0%Z
  | Raise (SystemExit code) => code
  | Raise (Exc _) => 1%Z
  end.

(** ** Views of a trace *)

Definition printed (tr : list Event) : list string :=
  flat_map (fun ev => match ev with EvPrint s => [s] | _ => [] end) tr.

Definition resize_calls (tr : list Event)
  : list (Image * (Z * Z) * Resampling) :=
  flat_map (fun ev => match ev with
                      | EvResize im s f => [(im, s, f)]
                      | _ => []
                      end) tr.

Definition save_calls (tr : list Event)
  : list (Image * string * string * list (Z * Z) * list Image) :=
  flat_map (fun ev => match ev with
                      | EvSave im fp fmt ss app => [(im, fp, fmt, ss, app)]
                      | _ => []
                      end) tr.

Definition convert_calls (tr : list Event) : list (Image * string) :=
  flat_map (fun ev => match ev with
                      | EvConvert im m => [(im, m)]
                      | _ => []
                      end) tr.

Definition stat_calls (tr : list Event) : list Path :=
  flat_map (fun ev => match ev with EvStat p => [p] | _ => [] end) tr.

(** Events that decode or encode: everything of Pillow. *)
Definition is_pillow_call (ev : Event) : bool :=
  match ev with
  | EvOpen _ | EvConvert _ _ | EvResize _ _ _ | EvSave _ _ _ _ _ => true
  | _ => false
  end.

(** Standard output takes each of the lines. *)
Definition stdout_accepts (fs : FS) (lines : list string) : bool :=
  forallb (fun line => match stdout_error fs line with
                       | None => true
                       | Some _ => false
                       end) lines.

(** Lines 25-29 as a function of the file system: the RGBA-normalised
    source image that the loop resizes. *)
Definition normalized_source (fs : FS) (png_path : string) : Error + Image :=
  match Image_open fs png_path with
  | inl e => inl e
  | inr img =>
      if negb (im_mode img =? "RGBA") then Image_convert img "RGBA"
      else inr img
  end.

(** ** The runs of the [try] body, by the stage that ends them

    The body ends at the first call that raises, or at [return True].
    [body_run] lists these ends with the whole result of each;
    [create_icon_body_runs] below shows that every run of the body is one of
    them.  [handler_run] is what lines 54-56 make of such a result. *)

(** [v] is [src.resize(size, LANCZOS)] *)
Definition resized (src : Image) (size : Z * Z) (v : Image) : Prop :=
  Image_resize src size LANCZOS = inr v.

Definition resize_events (src : Image) (l : list (Z * Z)) : list Event :=
  map (fun size => EvResize src size LANCZOS) l.

(** The events of lines 25-29. *)
Definition decode_events (fs : FS) (png_path : string) : list Event :=
  match Image_open fs png_path with
  | inl _ => [EvOpen png_path]
  | inr img =>
      if negb (im_mode img =? "RGBA")
      then [EvOpen png_path; EvConvert img "RGBA"]
      else [EvOpen png_path]
  end.

(** The events of a run that reached its save, [tail] being those after
    the save. *)
Definition encode_events (fs : FS) (png_path ico_path : string)
    (src primary : Image) (rest : list Image) (tail : list Event)
  : list Event :=
  (decode_events fs png_path ++ resize_events src sizes
   ++ EvSave primary ico_path "ICO" sizes rest :: tail)%list.

(** The two lines printed after a save (lines 45-46) and the third
    (line 50). *)
Definition success_text (ico_path : string) : list string :=
  ["✅ Icon created successfully: " ++ ico_path;
   "   Sizes included: " ++ String.concat ", " (map fmt_size sizes)].

Definition success_lines (ico_path : string) : list Event :=
  map EvPrint (success_text ico_path).

Definition size_line (st_size : Z) : string :=
  "   File size: " ++ format_kb st_size ++ " KB".

Inductive body_run (png_path ico_path : string) (fs : FS)
  : Res bool -> Prop :=
| body_decode_error e :
    normalized_source fs png_path = inl e ->
    body_run png_path ico_path fs
      (mkRes fs (decode_events fs png_path) (Raise (Exc e)))
| body_resize_error src done size todo vs e :
    normalized_source fs png_path = inr src ->
    sizes = (done ++ size :: todo)%list ->
    Forall2 (resized src) done vs ->
    Image_resize src size LANCZOS = inl e ->
    body_run png_path ico_path fs
      (mkRes fs
         (decode_events fs png_path
          ++ resize_events src (done ++ [size])%list)%list
         (Raise (Exc e)))
| body_save_error src primary rest fs' e :
    normalized_source fs png_path = inr src ->
    Forall2 (resized src) sizes (primary :: rest) ->
    Image_save fs primary ico_path "ICO" sizes rest = (fs', Some e) ->
    body_run png_path ico_path fs
      (mkRes fs'
         (encode_events fs png_path ico_path src primary rest [])
         (Raise (Exc e)))
| body_announce_error src primary rest fs' shown line later e :
    normalized_source fs png_path = inr src ->
    Forall2 (resized src) sizes (primary :: rest) ->
    Image_save fs primary ico_path "ICO" sizes rest = (fs', None) ->
    success_text ico_path = (shown ++ line :: later)%list ->
    stdout_accepts fs' shown = true ->
    stdout_error fs' line = Some e ->
    body_run png_path ico_path fs
      (mkRes fs'
         (encode_events fs png_path ico_path src primary rest
            (map EvPrint shown))
         (Raise (Exc e)))
| body_stat_error src primary rest fs' e :
    normalized_source fs png_path = inr src ->
    Forall2 (resized src) sizes (primary :: rest) ->
    Image_save fs primary ico_path "ICO" sizes rest = (fs', None) ->
    stdout_accepts fs' (success_text ico_path) = true ->
    path_stat_size fs' (Path_of ico_path) = inl e ->
    body_run png_path ico_path fs
      (mkRes fs'
         (encode_events fs png_path ico_path src primary rest
            (success_lines ico_path ++ [EvStat (Path_of ico_path)])%list)
         (Raise (Exc e)))
| body_size_line_error src primary rest fs' st_size e :
    normalized_source fs png_path = inr src ->
    Forall2 (resized src) sizes (primary :: rest) ->
    Image_save fs primary ico_path "ICO" sizes rest = (fs', None) ->
    stdout_accepts fs' (success_text ico_path) = true ->
    path_stat_size fs' (Path_of ico_path) = inr st_size ->
    stdout_error fs' (size_line st_size) = Some e ->
    body_run png_path ico_path fs
      (mkRes fs'
         (encode_events fs png_path ico_path src primary rest
            (success_lines ico_path ++ [EvStat (Path_of ico_path)])%list)
         (Raise (Exc e)))
| body_success src primary rest fs' st_size :
    normalized_source fs png_path = inr src ->
    Forall2 (resized src) sizes (primary :: rest) ->
    Image_save fs primary ico_path "ICO" sizes rest = (fs', None) ->
    stdout_accepts fs' (success_text ico_path) = true ->
    path_stat_size fs' (Path_of ico_path) = inr st_size ->
    stdout_error fs' (size_line st_size) = None ->
    body_run png_path ico_path fs
      (mkRes fs'
         (encode_events fs png_path ico_path src primary rest
            (success_lines ico_path
             ++ [EvStat (Path_of ico_path); EvPrint (size_line st_size)])%list)
         (Ret true)).

(** Lines 54-56 on the run of the body: an [Exception] is answered with
    the failure line and [False]; when that line cannot be printed, the error
    of the print is what leaves [create_icon]. *)
Definition handler_run (r : Res bool) : Res bool :=
  match res_val r with
  | Raise (Exc e) =>
      match stdout_error (res_fs r) (icon_error_msg e) with
      | None =>
          mkRes (res_fs r) (res_trace r ++ [EvPrint (icon_error_msg e)])%list
                (Ret false)
      | Some e' => mkRes (res_fs r) (res_trace r) (Raise (Exc e'))
      end
  | _ => r
  end.

(** What a run declared to the encoder, and what it handed over: per call
    of [save], the [sizes] argument and the dimensions of the images. *)
Definition declared_sizes (tr : list Event) : list (list (Z * Z)) :=
  map (fun c => let '(_, _, _, ss, _) := c in ss) (save_calls tr).

Definition variant_dims (tr : list Event) : list (list (Z * Z)) :=
  map (fun c => let '(im, _, _, _, app) := c in map im_size (im :: app))
      (save_calls tr).

(** The lines 45-46 of a run that saved to [ico_path]. *)
Definition success_printed (ico_path : string) : list string :=
  ["✅ Icon created successfully: " ++ ico_path;
   "   Sizes included: 256x256, 128x128, 64x64, 48x48, 32x32, 16x16"].

(** The lines of [main] before the conversion (lines 77-80), and its
    events from the check on (lines 71-80). *)
Definition header_text (png_path ico_path : Path) : list string :=
  ["🎨 Creating Windows icon...";
   "   Source: " ++ path_str png_path;
   "   Output: " ++ path_str ico_path;
   ""].

Definition header_events (png_path ico_path : Path) : list Event :=
  [EvExists png_path;
   EvPrint "🎨 Creating Windows icon...";
   EvPrint ("   Source: " ++ path_str png_path);
   EvPrint ("   Output: " ++ path_str ico_path);
   EvPrint ""].

(** The source cannot be decoded: opening it or converting it to RGBA
    raises [e], or, for a file whose pixel data Pillow reads lazily, a resize
    does. *)
Definition decoding_fails (fs : FS) (png_path : string) (e : Error) : Prop :=
  normalized_source fs png_path = inl e \/
  exists src done size todo vs,
    normalized_source fs png_path = inr src /\
    sizes = (done ++ size :: todo)%list /\
    Forall2 (resized src) done vs /\
    Image_resize src size LANCZOS = inl e.

(** ** What the script relies on from Pillow *)

(** [im.resize(size, ...)] returns an image of exactly [size]. *)
Definition resize_contract : Prop :=
  forall im size resample r,
    Image_resize im size resample = inr r -> im_size r = size.

(** [im.convert(mode)] returns an image of that mode. *)
Definition convert_contract : Prop :=
  forall im mode r, Image_convert im mode = inr r -> im_mode r = mode.

(** ** A successful conversion, seen from the command line

    Pillow was imported, the selected source was found, the header was
    printed, and [create_icon] returned [True]. *)
Definition conversion_succeeds (file : string) (argv : list string) (fs : FS)
  : Prop :=
  import_PIL fs = inr tt /\
  exists png_path ico_path,
    res_val (main_paths file argv fs) = Ret (png_path, ico_path) /\
    path_exists fs png_path = inr true /\
    stdout_accepts fs (header_text png_path ico_path) = true /\
    res_val (create_icon (path_str png_path) (path_str ico_path) fs)
    = Ret true.

End Script.

Arguments mkRes {P A} _ _ _.
Arguments res_fs {P A} _.
Arguments res_trace {P A} _.
Arguments res_val {P A} _.

(* ================================================================== *)
(** * A simulated platform *)
(* ================================================================== *)

(** A small file system with POSIX-style paths, on which the script runs
    by computation.  A raster file records its pixel mode, its size and how
    many bytes per pixel its content compresses to; a written icon records
    the entries it holds.  Standard output takes every line. *)
Module Sim.

Inductive File :=
| Raster (mode : string) (width height bpp : Z)
| Text (content : string)
| Icon (entries : list (Z * Z * Z)).

Record SimFS := mkFS {
  files : list (string * File);
  read_only : bool;
  pillow_installed : bool
}.

Record SimImage := mkImage {
  mode : string;
  size : Z * Z;
  bpp : Z
}.

Fixpoint split_slash (s cur : string) : list string :=
  match s with
  | EmptyString => [cur]
  | String c rest =>
      if Ascii.eqb c "/"%char then cur :: split_slash rest ""
      else split_slash rest (cur ++ String c EmptyString)
  end.

Definition starts_with_slash (s : string) : bool :=
  match s with
  | String c _ => Ascii.eqb c "/"%char
  | EmptyString => false
  end.

Definition Path_of (s : string) : Path :=
  mkPath (if starts_with_slash s then "/" else "")
         (filter (fun c => negb ((c =? "") || (c =? ".")))
                 (split_slash s "")).

Definition path_str (p : Path) : string :=
  match anchor p, parts p with
  | "", [] => "."
  | a, ps => a ++ String.concat "/" ps
  end.

(** A size in KB with one decimal, rounded to the nearest tenth, ties to
    the even tenth. *)
Definition format_kb (st_size : Z) : string :=
  let tenths := (10 * st_size)%Z in
  let q := (tenths / 1024)%Z in
  let r := (tenths mod 1024)%Z in
  let q := if ((512 <? r) || ((r =? 512) && Z.odd q))%Z then (q + 1)%Z else q in
  str_int (q / 10) ++ "." ++ str_int (q mod 10).

Fixpoint lookup (key : string) (l : list (string * File)) : option File :=
  match l with
  | [] => None
  | (k, f) :: l' => if k =? key then Some f else lookup key l'
  end.

Definition store (key : string) (f : File) (l : list (string * File))
  : list (string * File) :=
  (key, f) :: filter (fun kf => negb (fst kf =? key)) l.

Definition quote (s : string) : string := "'" ++ s ++ "'".

Definition file_size (f : File) : Z :=
  match f with
  | Raster _ w h b => (w * h * b)%Z
  | Text c => Z.of_nat (String.length c)
  | Icon entries =>
      fold_left (fun acc e => (acc + 16 + snd e)%Z) entries 6%Z
  end.

Definition no_such_file (fp : string) : Error :=
  mkError FileNotFoundError
          ("[Errno 2] No such file or directory: " ++ quote fp).

Definition import_PIL (fs : SimFS) : Error + unit :=
  if pillow_installed fs then inr tt
  else inl (mkError ModuleNotFoundError "No module named 'PIL'").

Definition path_exists (fs : SimFS) (p : Path) : bool :=
  match lookup (path_str p) (files fs) with Some _ => true | None => false end.

Definition path_stat_size (fs : SimFS) (p : Path) : Error + Z :=
  match lookup (path_str p) (files fs) with
  | Some f => inr (file_size f)
  | None => inl (no_such_file (path_str p))
  end.

Definition Image_open (fs : SimFS) (fp : string) : Error + SimImage :=
  match lookup (path_str (Path_of fp)) (files fs) with
  | None => inl (no_such_file fp)
  | Some (Raster m w h b) => inr (mkImage m (w, h) b)
  | Some _ =>
      inl (mkError UnidentifiedImageError
                   ("cannot identify image file " ++ quote fp))
  end.

Definition Image_convert (im : SimImage) (m : string) : Error + SimImage :=
  inr (mkImage m (size im) (bpp im)).

Definition Image_resize (im : SimImage) (s : Z * Z) (f : Resampling)
  : Error + SimImage :=
  if ((0 <? fst s) && (0 <? snd s))%Z then inr (mkImage (mode im) s (bpp im))
  else inl (mkError ValueError "height and width must be > 0").

Definition same_size (s : Z * Z) (im : SimImage) : bool :=
  ((fst (size im) =? fst s) && (snd (size im) =? snd s))%Z.

(** The entry written for a declared size: from the supplied image of that
    size, or else from the primary image scaled to it. *)
Definition entry_of (s : Z * Z) (im : SimImage) (supplied : list SimImage)
  : Z * Z * Z :=
  let chosen := match find (same_size s) supplied with
                | Some i => i
                | None => im
                end in
  (s, (fst s * snd s * bpp chosen)%Z).

Definition Image_save (fs : SimFS) (im : SimImage) (fp format : string)
    (sizes : list (Z * Z)) (append_images : list SimImage)
  : SimFS * option Error :=
  if negb (format =? "ICO") then
    (fs, Some (mkError ValueError ("unknown file extension: " ++ format)))
  else if read_only fs then
    (fs, Some (mkError PermissionError
                       ("[Errno 13] Permission denied: " ++ quote fp)))
  else
    (mkFS (store (path_str (Path_of fp))
                 (Icon (map (fun s => entry_of s im (im :: append_images))
                            sizes))
                 (files fs))
          (read_only fs) (pillow_installed fs),
     None).

(** The simulated platform with some of its calls replaced. *)
Definition platform_with
    (stdout_error : SimFS -> string -> option Error)
    (import_PIL : SimFS -> Error + unit)
    (path_exists : SimFS -> Path -> Error + bool)
    (path_stat_size : SimFS -> Path -> Error + Z)
    (Image_resize : SimImage -> Z * Z -> Resampling -> Error + SimImage)
  : Platform :=
  Build_Platform SimFS SimImage mode size Path_of path_str format_kb
                 stdout_error import_PIL path_exists path_stat_size
                 Image_open Image_convert Image_resize Image_save.

#[export] Instance platform : Platform :=
  platform_with (fun _ _ => None) import_PIL
                (fun fs p => inr (path_exists fs p))
                path_stat_size Image_resize.

(** ** Worlds *)

Definition script_file : string := "/repo/scripts/create-icon.py".

(** The repository as checked out: a 512 x 512 RGB logo. *)
Definition repo_fs : SimFS :=
  mkFS [("/repo/assets/app-logo-color.png", Raster "RGB" 512 512 3)]
       false true.


(** A text file renamed [.png]. *)
Definition corrupt_fs : SimFS :=
  mkFS [("/repo/assets/app-logo-color.png", Text "not an image")]
       false true.

(** A good logo on a file system that refuses writes. *)
Definition read_only_fs : SimFS :=
  mkFS [("/repo/assets/app-logo-color.png", Raster "RGBA" 512 512 4)]
       true true.

(** No logo at all. *)
Definition empty_fs : SimFS := mkFS [] false true.

(** Pillow is not installed. *)
Definition no_pillow_fs : SimFS :=
  mkFS [("/repo/assets/app-logo-color.png", Raster "RGB" 512 512 3)]
       false false.

Definition logo : string := "/repo/assets/app-logo-color.png".
Definition icon : string := "/repo/assets/app-icon.ico".

(** The logo of [repo_fs] once decoded and converted, and its variants. *)
Definition repo_source : SimImage := mkImage "RGBA" (512, 512)%Z 3.

Definition repo_variants : list SimImage :=
  map (fun s => mkImage "RGBA" s 3) sizes.

(** What opening the text file of [corrupt_fs] raises. *)
Definition cannot_identify : Error :=
  mkError UnidentifiedImageError
          "cannot identify image file '/repo/assets/app-logo-color.png'".

End Sim.

(** Variants of the simulated platform in which one call fails. *)
Module Faulty.

(** Resizing to a width of 48 runs out of memory. *)
Definition out_of_memory : Error := mkError OSError "out of memory".

Definition resize_fails : Platform :=
  Sim.platform_with (fun _ _ => None) Sim.import_PIL
    (fun fs p => inr (Sim.path_exists fs p)) Sim.path_stat_size
    (fun im s f => if (fst s =? 48)%Z then inl out_of_memory
                   else Sim.Image_resize im s f).

(** An image whose pixel data is read lazily and is truncated: it opens,
    and the first resize raises. *)
Definition truncated : Error := mkError OSError "image file is truncated".

Definition lazy_decode_fails : Platform :=
  Sim.platform_with (fun _ _ => None) Sim.import_PIL
    (fun fs p => inr (Sim.path_exists fs p)) Sim.path_stat_size
    (fun _ _ _ => inl truncated).

(** The written file cannot be examined. *)
Definition stat_denied_error : Error :=
  mkError PermissionError "[Errno 13] Permission denied".

Definition stat_denied : Platform :=
  Sim.platform_with (fun _ _ => None) Sim.import_PIL
    (fun fs p => inr (Sim.path_exists fs p))
    (fun _ _ => inl stat_denied_error) Sim.Image_resize.

(** Pillow is installed but its import fails with something else than an
    [ImportError]. *)
Definition broken_install : Error := mkError OSError "cannot load library".

Definition import_breaks : Platform :=
  Sim.platform_with (fun _ _ => None) (fun _ => inl broken_install)
    (fun fs p => inr (Sim.path_exists fs p)) Sim.path_stat_size
    Sim.Image_resize.

(** Standard output in a legacy encoding: a line with a character outside
    ASCII is refused. *)
Fixpoint is_ascii (s : string) : bool :=
  match s with
  | EmptyString => true
  | String c rest => (nat_of_ascii c <? 128)%nat && is_ascii rest
  end.

Definition cannot_encode : Error :=
  mkError UnicodeEncodeError
          "'charmap' codec can't encode character: character maps to <undefined>".

Definition legacy_stdout : Platform :=
  Sim.platform_with
    (fun _ line => if is_ascii line then None else Some cannot_encode)
    Sim.import_PIL (fun fs p => inr (Sim.path_exists fs p))
    Sim.path_stat_size Sim.Image_resize.

(** The check of the source path is refused by the operating system. *)
Definition name_too_long : Error :=
  mkError OSError "[Errno 36] File name too long".

Definition exists_fails : Platform :=
  Sim.platform_with (fun _ _ => None) Sim.import_PIL
    (fun _ _ => inl name_too_long) Sim.path_stat_size Sim.Image_resize.

(** The file system of [Sim.repo_fs] after a save of the variants. *)
Definition repo_fs_saved : Sim.SimFS :=
  fst (Sim.Image_save Sim.repo_fs
         (Sim.mkImage "RGBA" (256, 256)%Z 3) Sim.icon "ICO" sizes
         (map (fun s => Sim.mkImage "RGBA" s 3) (skipn 1 sizes))).

End Faulty.

(* ================================================================== *)
(** * Properties *)
(* ================================================================== *)

Section Properties.
Context {P : Platform}.

#[local] Arguments String.append : simpl never.
#[local] Arguments String.concat : simpl never.

(** ** The monad *)

Lemma bind_ret_l {A B} (a : A) (k : A -> M B) (fs : FS) :
  bind (ret a) k fs = k a fs.
Proof. unfold bind, ret; simpl. destruct (k a fs); reflexivity. Qed.

Lemma bind_call_inr {A B} ev (f : FS -> Error + A) (k : A -> M B) fs a :
  f fs = inr a ->
  bind (call ev f) k fs
  = mkRes (res_fs (k a fs)) (ev :: res_trace (k a fs)) (res_val (k a fs)).
Proof. intros H. unfold bind, call; simpl. rewrite H. reflexivity. Qed.

Lemma bind_call_inl {A B} ev (f : FS -> Error + A) (k : A -> M B) fs e :
  f fs = inl e ->
  bind (call ev f) k fs = mkRes fs [ev] (Raise (Exc e)).
Proof. intros H. unfold bind, call; simpl. rewrite H. reflexivity. Qed.

Lemma bind_print {B} line (k : unit -> M B) fs :
  bind (print line) k fs
  = match stdout_error fs line with
    | None =>
        mkRes (res_fs (k tt fs)) (EvPrint line :: res_trace (k tt fs))
              (res_val (k tt fs))
    | Some e => mkRes fs [] (Raise (Exc e))
    end.
Proof.
  unfold bind, print. destruct (stdout_error fs line); reflexivity.
Qed.

Lemma bind_run_ret {A B} (m : M A) (k : A -> M B) fs fs' tr a :
  m fs = mkRes fs' tr (Ret a) ->
  bind m k fs
  = mkRes (res_fs (k a fs')) (tr ++ res_trace (k a fs'))%list
          (res_val (k a fs')).
Proof. intros H. unfold bind. rewrite H. reflexivity. Qed.

Lemma bind_run_raise {A B} (m : M A) (k : A -> M B) fs fs' tr x :
  m fs = mkRes fs' tr (Raise x) ->
  bind m k fs = mkRes fs' tr (Raise x).
Proof. intros H. unfold bind. rewrite H. reflexivity. Qed.

Lemma bind_val_ret {A B} (m : M A) (k : A -> M B) fs a :
  res_val (m fs) = Ret a ->
  bind m k fs
  = mkRes (res_fs (k a (res_fs (m fs))))
          (res_trace (m fs) ++ res_trace (k a (res_fs (m fs))))%list
          (res_val (k a (res_fs (m fs)))).
Proof. intros H. unfold bind. rewrite H. reflexivity. Qed.

Lemma bind_val_raise {A B} (m : M A) (k : A -> M B) fs x :
  res_val (m fs) = Raise x ->
  bind m k fs = mkRes (res_fs (m fs)) (res_trace (m fs)) (Raise x).
Proof. intros H. unfold bind. rewrite H. reflexivity. Qed.

Lemma bind_assoc {A B C} (m : M A) (k : A -> M B) (h : B -> M C) fs :
  bind (bind m k) h fs = bind m (fun a => bind (k a) h) fs.
Proof.
  unfold bind. destruct (m fs) as [fs1 tr1 [a|x]]; cbn [res_fs res_trace res_val];
    [|reflexivity].
  destruct (k a fs1) as [fs2 tr2 [b|y]]; cbn [res_fs res_trace res_val];
    [|reflexivity].
  destruct (h b fs2) as [fs3 tr3 o]; cbn [res_fs res_trace res_val].
  rewrite app_assoc. reflexivity.
Qed.

Lemma bind_save {B} im fp fmt ss app (k : unit -> M B) fs :
  bind (do_save im fp fmt ss app) k fs
  = match Image_save fs im fp fmt ss app with
    | (fs', Some e) => mkRes fs' [EvSave im fp fmt ss app] (Raise (Exc e))
    | (fs', None) =>
        mkRes (res_fs (k tt fs'))
              (EvSave im fp fmt ss app :: res_trace (k tt fs'))
              (res_val (k tt fs'))
    end.
Proof.
  unfold bind, do_save.
  destruct (Image_save fs im fp fmt ss app) as [fs' [e|]]; reflexivity.
Qed.

Lemma stdout_accepts_cons (fs : FS) (line : string) (lines : list string) :
  stdout_accepts fs (line :: lines) = true <->
  stdout_error fs line = None /\ stdout_accepts fs lines = true.
Proof.
  unfold stdout_accepts. simpl.
  destruct (stdout_error fs line); simpl; split;
    try (intros [H1 H2]); try discriminate; auto.
Qed.

(** ** The resize loop *)

(** The loop leaves the file system alone; it returns the images appended
    to [icon_images] in the order of [todo], or stops at the first size
    whose resize raises. *)
Lemma resize_loop_cases (src : Image) (todo : list (Z * Z)) :
  forall (acc : list Image) (fs : FS),
    (exists vs,
        Forall2 (resized src) todo vs /\
        resize_loop src todo acc fs
        = mkRes fs (resize_events src todo) (Ret (acc ++ vs)%list))
    \/
    (exists done size todo' vs e,
        todo = (done ++ size :: todo')%list /\
        Forall2 (resized src) done vs /\
        Image_resize src size LANCZOS = inl e /\
        resize_loop src todo acc fs
        = mkRes fs (resize_events src (done ++ [size])%list) (Raise (Exc e))).
Proof.
  induction todo as [|size todo IH]; intros acc fs.
  - left. exists []. split; [constructor|].
    simpl. rewrite app_nil_r. reflexivity.
  - simpl. unfold do_resize.
    destruct (Image_resize src size LANCZOS) as [e|v] eqn:E.
    + right. exists [], size, todo, [], e.
      split; [reflexivity|]. split; [apply Forall2_nil|].
      split; [assumption|]. apply bind_call_inl. reflexivity.
    + rewrite (bind_call_inr _ _ _ _ v eq_refl).
      destruct (IH (acc ++ [v])%list fs) as
        [(vs & Hvs & Hrun) | (done & s & todo' & vs & e & Hsplit & Hvs & He & Hrun)].
      * left. exists (v :: vs). split; [constructor; assumption|].
        rewrite Hrun. simpl. rewrite <- app_assoc. reflexivity.
      * right. exists (size :: done), s, todo', (v :: vs), e.
        split; [rewrite Hsplit; reflexivity|].
        split; [constructor; assumption|].
        split; [assumption|].
        rewrite Hrun. reflexivity.
Qed.

(** ** Decoding: lines 25-29 followed by any continuation *)

Lemma decode_then {B} (k : Image -> M B) (png_path : string) (fs : FS) :
  bind (do_open png_path)
       (fun img =>
          bind (if negb (im_mode img =? "RGBA")
                then do_convert img "RGBA" else ret img) k) fs
  = match normalized_source fs png_path with
    | inl e => mkRes fs (decode_events fs png_path) (Raise (Exc e))
    | inr src =>
        mkRes (res_fs (k src fs))
              (decode_events fs png_path ++ res_trace (k src fs))%list
              (res_val (k src fs))
    end.
Proof.
  unfold normalized_source, decode_events, do_open.
  destruct (Image_open fs png_path) as [e|img] eqn:Hopen.
  - apply bind_call_inl. exact Hopen.
  - rewrite (bind_call_inr _ _ _ _ img Hopen).
    destruct (negb (im_mode img =? "RGBA")).
    + unfold do_convert.
      destruct (Image_convert img "RGBA") as [e|src] eqn:Hconv.
      * rewrite (bind_call_inl _ _ _ _ e); reflexivity.
      * rewrite (bind_call_inr _ _ _ _ src); reflexivity.
    + rewrite bind_ret_l. reflexivity.
Qed.

(** ** The runs of [create_icon] *)

Lemma create_icon_body_runs (png_path ico_path : string) (fs : FS) :
  body_run png_path ico_path fs (create_icon_body png_path ico_path fs).
Proof.
  unfold create_icon_body.
  rewrite decode_then.
  destruct (normalized_source fs png_path) as [e|src] eqn:Hnorm.
  - apply body_decode_error. exact Hnorm.
  - destruct (resize_loop_cases src sizes [] fs) as
      [(vs & Hvs & Hrun) | (done & s & todo & vs & e & Hsplit & Hvs & He & Hrun)].
    + assert (Hne : exists primary rest, vs = primary :: rest)
        by (unfold sizes in Hvs; inversion Hvs; eauto).
      destruct Hne as (primary & rest & ->).
      rewrite (bind_run_ret _ _ _ _ _ _ Hrun). cbv beta.
      change ([] ++ primary :: rest)%list with (primary :: rest).
      change (getitem (primary :: rest) 0) with (ret (A:=Image) primary).
      rewrite bind_ret_l, bind_save.
      change (skipn 1 (primary :: rest)) with rest.
      destruct (Image_save fs primary ico_path "ICO" sizes rest)
        as [fs' [e|]] eqn:Hsave.
      * cbn [res_fs res_trace res_val].
        eapply body_save_error; eassumption.
      * rewrite bind_print.
        destruct (stdout_error fs' ("✅ Icon created successfully: " ++ ico_path))
          as [e|] eqn:Hline1.
        { cbn [res_fs res_trace res_val].
          apply (body_announce_error png_path ico_path fs src primary rest fs'
                   [] _ _ e Hnorm Hvs Hsave eq_refl eq_refl Hline1). }
        rewrite bind_print.
        destruct (stdout_error fs'
                    ("   Sizes included: "
                     ++ String.concat ", " (map fmt_size sizes)))
          as [e|] eqn:Hline2.
        { cbn [res_fs res_trace res_val].
          apply (body_announce_error png_path ico_path fs src primary rest fs'
                   ["✅ Icon created successfully: " ++ ico_path] _ _ e
                   Hnorm Hvs Hsave eq_refl).
          - apply stdout_accepts_cons. split; [exact Hline1 | reflexivity].
          - exact Hline2. }
        assert (Hshown : stdout_accepts fs' (success_text ico_path) = true).
        { apply stdout_accepts_cons. split; [exact Hline1|].
          apply stdout_accepts_cons. split; [exact Hline2 | reflexivity]. }
        unfold do_stat_size.
        destruct (path_stat_size fs' (Path_of ico_path)) as [e|n] eqn:Hstat.
        -- rewrite (bind_call_inl _ _ _ _ e Hstat).
           cbn [res_fs res_trace res_val].
           apply (body_stat_error png_path ico_path fs src primary rest fs' e
                    Hnorm Hvs Hsave Hshown Hstat).
        -- rewrite (bind_call_inr _ _ _ _ n Hstat), bind_print.
           fold (size_line n).
           destruct (stdout_error fs' (size_line n)) as [e|] eqn:Hline3.
           ++ cbn [res_fs res_trace res_val].
              apply (body_size_line_error png_path ico_path fs src primary
                       rest fs' n e Hnorm Hvs Hsave Hshown Hstat Hline3).
           ++ cbn [res_fs res_trace res_val].
              apply (body_success png_path ico_path fs src primary rest fs' n
                       Hnorm Hvs Hsave Hshown Hstat Hline3).
    + rewrite (bind_run_raise _ _ _ _ _ _ Hrun).
      cbn [res_fs res_trace res_val].
      eapply body_resize_error; eassumption.
Qed.

Lemma create_icon_handled (png_path ico_path : string) (fs : FS) :
  create_icon png_path ico_path fs
  = handler_run (create_icon_body png_path ico_path fs).
Proof.
  unfold create_icon, try_except_Exception, handler_run.
  destruct (res_val (create_icon_body png_path ico_path fs)) as [b|[e|code]];
    try reflexivity.
  rewrite bind_print.
  destruct (stdout_error (res_fs (create_icon_body png_path ico_path fs))
              (icon_error_msg e)); cbn [res_fs res_trace res_val].
  - rewrite app_nil_r. reflexivity.
  - reflexivity.
Qed.

(** ** Views of the traces of a run *)

Lemma resize_calls_app (a b : list Event) :
  resize_calls (a ++ b) = (resize_calls a ++ resize_calls b)%list.
Proof. apply flat_map_app. Qed.

Lemma save_calls_app (a b : list Event) :
  save_calls (a ++ b) = (save_calls a ++ save_calls b)%list.
Proof. apply flat_map_app. Qed.

Lemma printed_app (a b : list Event) :
  printed (a ++ b) = (printed a ++ printed b)%list.
Proof. apply flat_map_app. Qed.

Lemma stat_calls_app (a b : list Event) :
  stat_calls (a ++ b) = (stat_calls a ++ stat_calls b)%list.
Proof. apply flat_map_app. Qed.

Lemma convert_calls_app (a b : list Event) :
  convert_calls (a ++ b) = (convert_calls a ++ convert_calls b)%list.
Proof. apply flat_map_app. Qed.

(** A view that ignores resize events, or printed lines, is empty on
    them. *)
Lemma flat_map_resize_events {B} (f : Event -> list B) (src : Image)
    (l : list (Z * Z)) :
  (forall size, f (EvResize src size LANCZOS) = []) ->
  flat_map f (resize_events src l) = [].
Proof.
  intros Hf. induction l as [|s l IH]; simpl; [reflexivity|].
  rewrite Hf, IH. reflexivity.
Qed.

Lemma flat_map_prints {B} (f : Event -> list B) (lines : list string) :
  (forall line, f (EvPrint line) = []) ->
  flat_map f (map EvPrint lines) = [].
Proof.
  intros Hf. induction lines as [|s l IH]; simpl; [reflexivity|].
  rewrite Hf, IH. reflexivity.
Qed.

Lemma printed_prints (lines : list string) :
  printed (map EvPrint lines) = lines.
Proof. induction lines as [|s l IH]; simpl; [|rewrite IH]; reflexivity. Qed.

Lemma decode_events_cases (fs : FS) (png_path : string) :
  decode_events fs png_path = [EvOpen png_path] \/
  exists img, decode_events fs png_path = [EvOpen png_path; EvConvert img "RGBA"].
Proof.
  unfold decode_events.
  destruct (Image_open fs png_path) as [e|img]; [left; reflexivity|].
  destruct (negb (im_mode img =? "RGBA")); [right; eauto | left; reflexivity].
Qed.

Lemma resize_calls_decode (fs : FS) (png_path : string) :
  resize_calls (decode_events fs png_path) = [].
Proof.
  destruct (decode_events_cases fs png_path) as [-> | [img ->]]; reflexivity.
Qed.

Lemma save_calls_decode (fs : FS) (png_path : string) :
  save_calls (decode_events fs png_path) = [].
Proof.
  destruct (decode_events_cases fs png_path) as [-> | [img ->]]; reflexivity.
Qed.

Lemma printed_decode (fs : FS) (png_path : string) :
  printed (decode_events fs png_path) = [].
Proof.
  destruct (decode_events_cases fs png_path) as [-> | [img ->]]; reflexivity.
Qed.

Lemma stat_calls_decode (fs : FS) (png_path : string) :
  stat_calls (decode_events fs png_path) = [].
Proof.
  destruct (decode_events_cases fs png_path) as [-> | [img ->]]; reflexivity.
Qed.

Lemma resize_calls_resize_events (src : Image) (l : list (Z * Z)) :
  resize_calls (resize_events src l) = map (fun size => (src, size, LANCZOS)) l.
Proof. induction l as [|s l IH]; simpl; [|rewrite <- IH]; reflexivity. Qed.

Lemma save_calls_resize_events (src : Image) (l : list (Z * Z)) :
  save_calls (resize_events src l) = [].
Proof. apply flat_map_resize_events. reflexivity. Qed.

Lemma printed_resize_events (src : Image) (l : list (Z * Z)) :
  printed (resize_events src l) = [].
Proof. apply flat_map_resize_events. reflexivity. Qed.

Lemma stat_calls_resize_events (src : Image) (l : list (Z * Z)) :
  stat_calls (resize_events src l) = [].
Proof. apply flat_map_resize_events. reflexivity. Qed.

Lemma convert_calls_resize_events (src : Image) (l : list (Z * Z)) :
  convert_calls (resize_events src l) = [].
Proof. apply flat_map_resize_events. reflexivity. Qed.

(** The views of a run that reached the save. *)
Lemma resize_calls_encode fs png_path ico_path src primary rest tail :
  resize_calls (encode_events fs png_path ico_path src primary rest tail)
  = (map (fun size => (src, size, LANCZOS)) sizes ++ resize_calls tail)%list.
Proof.
  unfold encode_events.
  rewrite !resize_calls_app, resize_calls_decode, resize_calls_resize_events.
  reflexivity.
Qed.

Lemma save_calls_encode fs png_path ico_path src primary rest tail :
  save_calls (encode_events fs png_path ico_path src primary rest tail)
  = (primary, ico_path, "ICO", sizes, rest) :: save_calls tail.
Proof.
  unfold encode_events.
  rewrite !save_calls_app, save_calls_decode, save_calls_resize_events.
  reflexivity.
Qed.

Lemma printed_encode fs png_path ico_path src primary rest tail :
  printed (encode_events fs png_path ico_path src primary rest tail)
  = printed tail.
Proof.
  unfold encode_events.
  rewrite !printed_app, printed_decode, printed_resize_events.
  reflexivity.
Qed.

Lemma stat_calls_encode fs png_path ico_path src primary rest tail :
  stat_calls (encode_events fs png_path ico_path src primary rest tail)
  = stat_calls tail.
Proof.
  unfold encode_events.
  rewrite !stat_calls_app, stat_calls_decode, stat_calls_resize_events.
  reflexivity.
Qed.

Lemma convert_calls_encode fs png_path ico_path src primary rest tail :
  convert_calls (encode_events fs png_path ico_path src primary rest tail)
  = (convert_calls (decode_events fs png_path) ++ convert_calls tail)%list.
Proof.
  unfold encode_events.
  rewrite !convert_calls_app, convert_calls_resize_events.
  reflexivity.
Qed.

(** The handler adds a printed line at most. *)
Lemma handler_run_fs (r : Res bool) : res_fs (handler_run r) = res_fs r.
Proof.
  unfold handler_run. destruct (res_val r) as [b|[e|c]]; try reflexivity.
  destruct (stdout_error (res_fs r) (icon_error_msg e)); reflexivity.
Qed.

Lemma handler_run_view {B} (f : Event -> list B) (r : Res bool) :
  (forall line, f (EvPrint line) = []) ->
  flat_map f (res_trace (handler_run r)) = flat_map f (res_trace r).
Proof.
  intros Hf. unfold handler_run.
  destruct (res_val r) as [b|[e|c]]; try reflexivity.
  destruct (stdout_error (res_fs r) (icon_error_msg e)); [reflexivity|].
  cbn [res_trace]. rewrite flat_map_app. simpl. rewrite Hf.
  rewrite !app_nil_r. reflexivity.
Qed.

Lemma handler_run_raise (fs1 : FS) (tr : list Event) (e : Error) :
  handler_run (mkRes fs1 tr (Raise (Exc e)))
  = match stdout_error fs1 (icon_error_msg e) with
    | None => mkRes fs1 (tr ++ [EvPrint (icon_error_msg e)])%list (Ret false)
    | Some e' => mkRes fs1 tr (Raise (Exc e'))
    end.
Proof. reflexivity. Qed.

Lemma handler_run_true (r : Res bool) :
  res_val (handler_run r) = Ret true -> res_val r = Ret true.
Proof.
  unfold handler_run. destruct (res_val r) as [b|[e|c]] eqn:Hv.
  - intros H. rewrite Hv in H. exact H.
  - destruct (stdout_error (res_fs r) (icon_error_msg e)); discriminate.
  - intros H. rewrite Hv in H. discriminate H.
Qed.

(** ** Resizing is a function of the source and the size *)

Lemma resized_functional (src : Image) (l : list (Z * Z)) :
  forall vs vs',
    Forall2 (resized src) l vs -> Forall2 (resized src) l vs' -> vs = vs'.
Proof.
  induction l as [|s l IH]; intros vs vs' H H'; inversion H; inversion H'; subst.
  - reflexivity.
  - f_equal; [unfold resized in *; congruence | apply IH; assumption].
Qed.

Lemma resized_no_error (src : Image) (done : list (Z * Z)) :
  forall size todo vs e,
    Forall2 (resized src) (done ++ size :: todo) vs ->
    Image_resize src size LANCZOS = inl e -> False.
Proof.
  induction done as [|s done IH]; intros size todo vs e H He;
    inversion H; subst.
  - unfold resized in *. congruence.
  - eapply IH; eassumption.
Qed.

Lemma resized_dims (src : Image) (l : list (Z * Z)) :
  resize_contract ->
  forall vs, Forall2 (resized src) l vs -> map im_size vs = l.
Proof.
  intros Hc. induction l as [|s l IH]; intros vs H; inversion H; subst.
  - reflexivity.
  - simpl. f_equal; [eapply Hc; eassumption | apply IH; assumption].
Qed.

(** The first size whose resize raises is determined by the source. *)
Lemma first_failure_unique (src : Image) (d1 : list (Z * Z)) :
  forall d2 s1 s2 t1 t2 v1 v2 e1 e2,
    (d1 ++ s1 :: t1 = d2 ++ s2 :: t2)%list ->
    Forall2 (resized src) d1 v1 ->
    Image_resize src s1 LANCZOS = inl e1 ->
    Forall2 (resized src) d2 v2 ->
    Image_resize src s2 LANCZOS = inl e2 ->
    d1 = d2 /\ s1 = s2 /\ t1 = t2.
Proof.
  induction d1 as [|a d1 IH]; intros [|b d2] s1 s2 t1 t2 v1 v2 e1 e2
    Heq H1 He1 H2 He2; simpl in Heq; injection Heq as Hhd Htl.
  - auto.
  - subst b. inversion H2; subst. unfold resized in *. congruence.
  - subst a. inversion H1; subst. unfold resized in *. congruence.
  - subst b. inversion H1 as [|? w1 ? l1 ? Hl1]; subst.
    inversion H2 as [|? w2 ? l2 ? Hl2]; subst.
    destruct (IH d2 s1 s2 t1 t2 l1 l2 e1 e2 Htl Hl1 He1 Hl2 He2)
      as (-> & -> & ->).
    auto.
Qed.

Lemma normalized_source_mode (fs : FS) (png_path : string) (src : Image) :
  convert_contract ->
  normalized_source fs png_path = inr src -> im_mode src = "RGBA".
Proof.
  intros Hc. unfold normalized_source.
  destruct (Image_open fs png_path) as [e|img]; [discriminate|].
  destruct (im_mode img =? "RGBA") eqn:Hmode; simpl.
  - intros H. injection H as <-. apply String.eqb_eq. exact Hmode.
  - apply Hc.
Qed.

(** The runs of the body, with their equations at hand. *)
Ltac body_cases png_path ico_path fs :=
  destruct (create_icon_body_runs png_path ico_path fs) as
    [e' Hn'
    | src' done' size' todo' vs' e' Hn' Hs' Hvs' He'
    | src' primary' rest' fs'' e' Hn' Hvs' Hsave'
    | src' primary' rest' fs'' shown' line' later' e' Hn' Hvs' Hsave'
        Htext' Hshown' Hline'
    | src' primary' rest' fs'' e' Hn' Hvs' Hsave' Hshown' Hstat'
    | src' primary' rest' fs'' n' e' Hn' Hvs' Hsave' Hshown' Hstat' Hline'
    | src' primary' rest' fs'' n' Hn' Hvs' Hsave' Hshown' Hstat' Hline'].

(** A run that returns [True] went through every stage. *)
Lemma create_icon_true_inv (png_path ico_path : string) (fs : FS) :
  res_val (create_icon png_path ico_path fs) = Ret true ->
  exists src primary rest fs' st_size,
    normalized_source fs png_path = inr src /\
    Forall2 (resized src) sizes (primary :: rest) /\
    Image_save fs primary ico_path "ICO" sizes rest = (fs', None) /\
    path_stat_size fs' (Path_of ico_path) = inr st_size /\
    create_icon png_path ico_path fs
    = mkRes fs'
        (encode_events fs png_path ico_path src primary rest
           (success_lines ico_path
            ++ [EvStat (Path_of ico_path); EvPrint (size_line st_size)])%list)
        (Ret true).
Proof.
  rewrite create_icon_handled. intros Hret.
  pose proof (handler_run_true _ Hret) as Hbody. clear Hret.
  revert Hbody.
  body_cases png_path ico_path fs; cbn [res_val]; intros Hbody;
    try discriminate Hbody.
  exists src', primary', rest', fs'', n'. repeat (split; [assumption|]).
  reflexivity.
Qed.

(** ** The variants and the encoder call *)

(** C1: for every source that decodes and resizes (RGBA or not),
    [create_icon] makes exactly six resize calls, each on the one
    RGBA-normalised source image (never on an earlier variant), for the boxes
    256x256, 128x128, 64x64, 48x48, 32x32, 16x16 in that order; the six
    results have exactly these dimensions and are, in that order, the images
    handed to the encoder. *)
Theorem C1_six_variants_of_the_normalized_source
    (png_path ico_path : string) (fs : FS) (src : Image) (vs : list Image) :
  resize_contract ->
  convert_contract ->
  normalized_source fs png_path = inr src ->
  Forall2 (resized src) sizes vs ->
  let r := create_icon png_path ico_path fs in
  im_mode src = "RGBA" /\
  resize_calls (res_trace r)
  = [(src, (256, 256), LANCZOS); (src, (128, 128), LANCZOS);
     (src, (64, 64), LANCZOS); (src, (48, 48), LANCZOS);
     (src, (32, 32), LANCZOS); (src, (16, 16), LANCZOS)]%Z /\
  length vs = 6%nat /\
  map im_size vs
  = [(256, 256); (128, 128); (64, 64); (48, 48); (32, 32); (16, 16)]%Z /\
  exists primary rest,
    vs = primary :: rest /\
    save_calls (res_trace r) = [(primary, ico_path, "ICO", sizes, rest)].
Proof.
  intros Hresize Hconvert Hnorm Hvs r.
  split; [eapply normalized_source_mode; eassumption|].
  assert (Hdims : map im_size vs = sizes) by (apply (resized_dims src); assumption).
  assert (Hlen : length vs = 6%nat)
    by (rewrite <- (length_map im_size), Hdims; reflexivity).
  cut (resize_calls (res_trace r) = map (fun size => (src, size, LANCZOS)) sizes
       /\ exists primary rest,
           vs = primary :: rest /\
           save_calls (res_trace r) = [(primary, ico_path, "ICO", sizes, rest)]).
  { intros [Hcalls Hsave]. repeat split; assumption. }
  subst r. rewrite create_icon_handled.
  unfold resize_calls at 1, save_calls.
  rewrite !handler_run_view by reflexivity.
  fold (resize_calls (res_trace (create_icon_body png_path ico_path fs))).
  fold (save_calls (res_trace (create_icon_body png_path ico_path fs))).
  body_cases png_path ico_path fs; cbn [res_trace];
    rewrite Hnorm in Hn'; try discriminate Hn'; injection Hn' as <-;
    try (exfalso; rewrite Hs' in Hvs; eapply resized_no_error; eassumption);
    rewrite (resized_functional src sizes vs _ Hvs Hvs');
    rewrite resize_calls_encode, save_calls_encode;
    (split; [|exists primary', rest'; split; [reflexivity|]]).
  - reflexivity.
  - reflexivity.
  - unfold resize_calls. rewrite flat_map_prints by reflexivity.
    apply app_nil_r.
  - unfold save_calls. rewrite flat_map_prints by reflexivity. reflexivity.
  - reflexivity.
  - reflexivity.
  - reflexivity.
  - reflexivity.
  - reflexivity.
  - reflexivity.
Qed.

(** C2: on every run that returns [True] the encoder is called exactly
    once, on the first variant (256x256) as the primary image with the other
    five, in order, as [append_images]; the [sizes] it is given is the fixed
    list and equals, entry by entry, the dimensions of the six images; hence
    any two successful runs declare the same sizes and hand over images of
    the same dimensions. *)
Theorem C2_encoder_called_once_with_all_variants
    (png_path ico_path : string) (fs : FS) :
  resize_contract ->
  res_val (create_icon png_path ico_path fs) = Ret true ->
  let r := create_icon png_path ico_path fs in
  (exists src primary rest,
      normalized_source fs png_path = inr src /\
      Forall2 (resized src) sizes (primary :: rest) /\
      save_calls (res_trace r) = [(primary, ico_path, "ICO", sizes, rest)] /\
      length (primary :: rest) = 6%nat /\
      im_size primary = (256, 256)%Z /\
      map im_size (primary :: rest) = sizes) /\
  declared_sizes (res_trace r)
  = [[(256, 256); (128, 128); (64, 64); (48, 48); (32, 32); (16, 16)]%Z] /\
  variant_dims (res_trace r) = declared_sizes (res_trace r) /\
  (forall png_path' ico_path' fs',
      res_val (create_icon png_path' ico_path' fs') = Ret true ->
      declared_sizes (res_trace (create_icon png_path' ico_path' fs'))
      = declared_sizes (res_trace r) /\
      variant_dims (res_trace (create_icon png_path' ico_path' fs'))
      = variant_dims (res_trace r)).
Proof.
  intros Hresize Hret r.
  assert (Hone : forall p i f,
             res_val (create_icon p i f) = Ret true ->
             (exists src primary rest,
                 normalized_source f p = inr src /\
                 Forall2 (resized src) sizes (primary :: rest) /\
                 save_calls (res_trace (create_icon p i f))
                 = [(primary, i, "ICO", sizes, rest)] /\
                 length (primary :: rest) = 6%nat /\
                 im_size primary = (256, 256)%Z /\
                 map im_size (primary :: rest) = sizes) /\
             declared_sizes (res_trace (create_icon p i f)) = [sizes] /\
             variant_dims (res_trace (create_icon p i f)) = [sizes]).
  { intros p i f H.
    destruct (create_icon_true_inv p i f H)
      as (src & primary & rest & fs' & n & Hn & Hvs & Hsave & Hstat & Hrun).
    assert (Hdims : map im_size (primary :: rest) = sizes)
      by (apply (resized_dims src); assumption).
    assert (Hcall : save_calls (res_trace (create_icon p i f))
                    = [(primary, i, "ICO", sizes, rest)]).
    { rewrite Hrun. cbn [res_trace]. rewrite save_calls_encode. reflexivity. }
    split; [|split].
    - exists src, primary, rest. repeat (split; [assumption|]).
      split; [rewrite <- (length_map im_size), Hdims; reflexivity|].
      split; [|exact Hdims].
      injection Hdims as Hp _. exact Hp.
    - unfold declared_sizes. rewrite Hcall. reflexivity.
    - unfold variant_dims. rewrite Hcall.
      exact (f_equal (fun x => [x]) Hdims). }
  destruct (Hone png_path ico_path fs Hret) as (Hcall & Hdecl & Hvar).
  fold r in Hcall, Hdecl, Hvar.
  split; [exact Hcall|]. split; [exact Hdecl|].
  split; [rewrite Hvar, Hdecl; reflexivity|].
  intros p i f H. destruct (Hone p i f H) as (_ & Hd & Hv).
  rewrite Hd, Hv, Hdecl, Hvar. split; reflexivity.
Qed.

(** ** [create_icon] at its boundary *)

(** [create_icon] returns a boolean or raises an [Exception]; it never
    exits the interpreter. *)
Lemma create_icon_outcome (png_path ico_path : string) (fs : FS) :
  (exists b, res_val (create_icon png_path ico_path fs) = Ret b) \/
  (exists e, res_val (create_icon png_path ico_path fs) = Raise (Exc e)).
Proof.
  rewrite create_icon_handled.
  body_cases png_path ico_path fs; rewrite ?handler_run_raise;
    try (destruct (stdout_error _ (icon_error_msg e')); cbn [res_val]);
    eauto.
  left. exists true. reflexivity.
Qed.


(** ** [main] *)

Lemma main_paths_run (file : string) (argv : list string) (fs : FS) :
  exists png_path ico_path,
    main_paths file argv fs = mkRes fs [] (Ret (png_path, ico_path)).
Proof.
  unfold main_paths, bind, getitem, ret.
  destruct argv as [|s [|a [|b extra]]]; simpl; eauto.
Qed.

Lemma main_unfold (file : string) (argv : list string) (fs : FS)
    (png_path ico_path : Path) :
  res_val (main_paths file argv fs) = Ret (png_path, ico_path) ->
  main file argv fs = main_run png_path ico_path fs.
Proof.
  intros H.
  destruct (main_paths_run file argv fs) as (p & i & Hrun).
  rewrite Hrun in H. injection H as -> ->.
  unfold main. rewrite (bind_run_ret _ _ _ _ _ _ Hrun).
  cbv beta iota delta [fst snd].
  destruct (main_run png_path ico_path fs); reflexivity.
Qed.

Lemma main_run_exists_error (png_path ico_path : Path) (fs : FS) (e : Error) :
  path_exists fs png_path = inl e ->
  main_run png_path ico_path fs = mkRes fs [EvExists png_path] (Raise (Exc e)).
Proof.
  intros H. unfold main_run, do_exists.
  apply bind_call_inl. exact H.
Qed.

(** The run of [main] on a missing source, whatever standard output
    takes. *)
Lemma main_run_missing_cases (png_path ico_path : Path) (fs : FS) :
  path_exists fs png_path = inr false ->
  main_run png_path ico_path fs
  = match stdout_error fs (not_found_msg png_path) with
    | Some e => mkRes fs [EvExists png_path] (Raise (Exc e))
    | None =>
        match stdout_error fs usage_msg with
        | Some e =>
            mkRes fs [EvExists png_path; EvPrint (not_found_msg png_path)]
                  (Raise (Exc e))
        | None =>
            mkRes fs
              [EvExists png_path; EvPrint (not_found_msg png_path);
               EvPrint usage_msg]
              (Raise (SystemExit 1))
        end
    end.
Proof.
  intros H. unfold main_run, do_exists.
  rewrite (bind_call_inr _ _ _ _ false H).
  cbn [negb]. rewrite bind_assoc, bind_print.
  destruct (stdout_error fs (not_found_msg png_path)); [reflexivity|].
  rewrite bind_assoc, bind_print.
  destruct (stdout_error fs usage_msg); reflexivity.
Qed.

Lemma main_run_missing (png_path ico_path : Path) (fs : FS) :
  path_exists fs png_path = inr false ->
  stdout_accepts fs [not_found_msg png_path; usage_msg] = true ->
  main_run png_path ico_path fs
  = mkRes fs
      [EvExists png_path; EvPrint (not_found_msg png_path); EvPrint usage_msg]
      (Raise (SystemExit 1)).
Proof.
  intros H Hout. rewrite (main_run_missing_cases _ _ _ H).
  apply stdout_accepts_cons in Hout. destruct Hout as [-> Hout].
  apply stdout_accepts_cons in Hout. destruct Hout as [-> _].
  reflexivity.
Qed.

(** The run of [main] on a source that exists, up to the conversion. *)
Lemma main_run_found_cases (png_path ico_path : Path) (fs : FS) :
  path_exists fs png_path = inr true ->
  (stdout_accepts fs (header_text png_path ico_path) = true /\
   main_run png_path ico_path fs
   = let x := bind (create_icon (path_str png_path) (path_str ico_path))
                   (fun ok : bool => if ok then sys_exit 0%Z else sys_exit 1%Z)
                   fs in
     mkRes (res_fs x) (header_events png_path ico_path ++ res_trace x)%list
           (res_val x)) \/
  (stdout_accepts fs (header_text png_path ico_path) = false /\
   exists tr e,
     main_run png_path ico_path fs = mkRes fs tr (Raise (Exc e)) /\
     existsb is_pillow_call tr = false).
Proof.
  intros H. unfold main_run, do_exists.
  rewrite (bind_call_inr _ _ _ _ true H).
  cbn [negb]. rewrite bind_ret_l.
  unfold stdout_accepts, header_text. cbn [forallb].
  rewrite bind_print.
  destruct (stdout_error fs "🎨 Creating Windows icon...") as [e|];
    [right; split; [reflexivity|]; eexists _, e; split; reflexivity|].
  rewrite bind_print.
  destruct (stdout_error fs ("   Source: " ++ path_str png_path)) as [e|];
    [right; split; [reflexivity|]; eexists _, e; split; reflexivity|].
  rewrite bind_print.
  destruct (stdout_error fs ("   Output: " ++ path_str ico_path)) as [e|];
    [right; split; [reflexivity|]; eexists _, e; split; reflexivity|].
  rewrite bind_print.
  destruct (stdout_error fs "") as [e|];
    [right; split; [reflexivity|]; eexists _, e; split; reflexivity|].
  left. split; reflexivity.
Qed.

Lemma main_run_found (png_path ico_path : Path) (fs : FS) (ok : bool) :
  path_exists fs png_path = inr true ->
  stdout_accepts fs (header_text png_path ico_path) = true ->
  res_val (create_icon (path_str png_path) (path_str ico_path) fs) = Ret ok ->
  main_run png_path ico_path fs
  = mkRes
      (res_fs (create_icon (path_str png_path) (path_str ico_path) fs))
      (header_events png_path ico_path
       ++ res_trace (create_icon (path_str png_path) (path_str ico_path) fs))%list
      (Raise (SystemExit (if ok then 0 else 1))).
Proof.
  intros H Hout Hok.
  destruct (main_run_found_cases png_path ico_path fs H)
    as [[_ ->] | [Hno _]]; [|rewrite Hout in Hno; discriminate Hno].
  cbv zeta. rewrite (bind_val_ret _ _ _ ok Hok).
  destruct ok; cbn [res_fs res_trace res_val sys_exit raise];
    rewrite app_nil_r; reflexivity.
Qed.

Lemma main_run_found_raise (png_path ico_path : Path) (fs : FS) (x : PyExn) :
  path_exists fs png_path = inr true ->
  stdout_accepts fs (header_text png_path ico_path) = true ->
  res_val (create_icon (path_str png_path) (path_str ico_path) fs) = Raise x ->
  main_run png_path ico_path fs
  = mkRes
      (res_fs (create_icon (path_str png_path) (path_str ico_path) fs))
      (header_events png_path ico_path
       ++ res_trace (create_icon (path_str png_path) (path_str ico_path) fs))%list
      (Raise x).
Proof.
  intros H Hout Hx.
  destruct (main_run_found_cases png_path ico_path fs H)
    as [[_ ->] | [Hno _]]; [|rewrite Hout in Hno; discriminate Hno].
  cbv zeta. rewrite (bind_val_raise _ _ _ x Hx). reflexivity.
Qed.

(** How [main] ends: never by returning; with status 0 exactly when the
    source was found, the header printed and the conversion returned
    [True]; with status 1 otherwise. *)
Lemma main_run_exit (png_path ico_path : Path) (fs : FS) :
  (forall u, res_val (main_run png_path ico_path fs) <> Ret u) /\
  (exit_code (res_val (main_run png_path ico_path fs)) = 0%Z \/
   exit_code (res_val (main_run png_path ico_path fs)) = 1%Z) /\
  (exit_code (res_val (main_run png_path ico_path fs)) = 0%Z <->
   path_exists fs png_path = inr true /\
   stdout_accepts fs (header_text png_path ico_path) = true /\
   res_val (create_icon (path_str png_path) (path_str ico_path) fs)
   = Ret true).
Proof.
  destruct (path_exists fs png_path) as [e|[|]] eqn:Hex.
  - rewrite (main_run_exists_error _ _ _ e Hex). cbn [res_val exit_code].
    split; [discriminate|]. split; [right; reflexivity|].
    split; [discriminate|]. intros (H & _). discriminate H.
  - destruct (main_run_found_cases png_path ico_path fs Hex)
      as [[Hout _] | [Hno (tr & e & Hrun & _)]].
    + destruct (create_icon_outcome (path_str png_path) (path_str ico_path) fs)
        as [[ok Hok] | [e Hraise]].
      * rewrite (main_run_found _ _ _ ok Hex Hout Hok). cbn [res_val exit_code].
        destruct ok.
        -- split; [discriminate|]. split; [left; reflexivity|].
           split; [intros _; repeat split; assumption | reflexivity].
        -- split; [discriminate|]. split; [right; reflexivity|].
           split; [discriminate|]. intros (_ & _ & H).
           rewrite Hok in H. discriminate H.
      * rewrite (main_run_found_raise _ _ _ _ Hex Hout Hraise).
        cbn [res_val exit_code].
        split; [discriminate|]. split; [right; reflexivity|].
        split; [discriminate|]. intros (_ & _ & H).
        rewrite Hraise in H. discriminate H.
    + rewrite Hrun. cbn [res_val exit_code].
      split; [discriminate|]. split; [right; reflexivity|].
      split; [discriminate|]. intros (_ & H & _).
      rewrite Hno in H. discriminate H.
  - rewrite (main_run_missing_cases _ _ _ Hex).
    destruct (stdout_error fs (not_found_msg png_path));
      [|destruct (stdout_error fs usage_msg)];
      cbn [res_val exit_code];
      (split; [discriminate|]); (split; [right; reflexivity|]);
      (split; [discriminate|]); intros (H & _); discriminate H.
Qed.

(** ** The script *)

Lemma script_import_ok (file : string) (argv : list string) (fs : FS) :
  import_PIL fs = inr tt ->
  script file argv fs
  = mkRes (res_fs (main file argv fs))
          (EvImport :: res_trace (main file argv fs))
          (res_val (main file argv fs)).
Proof.
  intros H. unfold script, try_except_ImportError, do_import, call.
  unfold bind at 1. cbn [res_fs res_trace res_val]. rewrite H. reflexivity.
Qed.

(** The run of the script when the import raises, whatever standard output
    takes. *)
Lemma script_import_error (file : string) (argv : list string) (fs : FS)
    (e : Error) :
  import_PIL fs = inl e ->
  script file argv fs
  = if isinstance_ImportError e
    then match stdout_error fs "Error: Pillow library not found" with
         | Some e1 => mkRes fs [EvImport] (Raise (Exc e1))
         | None =>
             match stdout_error fs "Install with: pip install Pillow" with
             | Some e2 =>
                 mkRes fs [EvImport; EvPrint "Error: Pillow library not found"]
                       (Raise (Exc e2))
             | None =>
                 mkRes fs
                   [EvImport; EvPrint "Error: Pillow library not found";
                    EvPrint "Install with: pip install Pillow"]
                   (Raise (SystemExit 1))
             end
         end
    else mkRes fs [EvImport] (Raise (Exc e)).
Proof.
  intros H. unfold script, try_except_ImportError, do_import, call.
  unfold bind at 1. cbn [res_fs res_trace res_val]. rewrite H.
  destruct (isinstance_ImportError e); [|reflexivity].
  rewrite bind_print.
  destruct (stdout_error fs "Error: Pillow library not found");
    [reflexivity|].
  rewrite bind_print.
  destruct (stdout_error fs "Install with: pip install Pillow"); reflexivity.
Qed.

Lemma pillow_free_missing (png_path : Path) :
  existsb is_pillow_call
    [EvExists png_path; EvPrint (not_found_msg png_path); EvPrint usage_msg]
  = false.
Proof. reflexivity. Qed.

(** The line for a missing source is never the line of the handler in
    [create_icon]. *)
Lemma not_found_msg_distinct (png_path : Path) (e : Error) :
  not_found_msg png_path <> icon_error_msg e.
Proof.
  unfold not_found_msg, icon_error_msg.
  cbv beta iota delta [String.append]. fold String.append.
  intros H. discriminate H.
Qed.

(** ** Errors *)

(** C3: when the source path does not exist, [main] calls nothing of
    Pillow (nothing is decoded, nothing saved), leaves the file system as it
    was and ends with exit status 1; on a standard output that takes the two
    lines its run is exactly the existence check, the line that names the
    missing file, the usage line and [sys.exit(1)].  The line that names the
    missing file is never a line of the handler of conversion failures. *)
Theorem C3_missing_source_reported_before_decoding
    (file : string) (argv : list string) (fs : FS) (png_path ico_path : Path) :
  res_val (main_paths file argv fs) = Ret (png_path, ico_path) ->
  path_exists fs png_path = inr false ->
  let r := main file argv fs in
  (stdout_accepts fs [not_found_msg png_path; usage_msg] = true ->
   r = mkRes fs
         [EvExists png_path; EvPrint (not_found_msg png_path);
          EvPrint usage_msg]
         (Raise (SystemExit 1))) /\
  existsb is_pillow_call (res_trace r) = false /\
  save_calls (res_trace r) = [] /\
  res_fs r = fs /\
  exit_code (res_val r) = 1%Z /\
  (forall e, not_found_msg png_path <> icon_error_msg e).
Proof.
  intros Hpaths Hmissing r. subst r.
  rewrite (main_unfold _ _ _ _ _ Hpaths).
  split; [apply main_run_missing; exact Hmissing|].
  rewrite (main_run_missing_cases _ _ _ Hmissing).
  destruct (stdout_error fs (not_found_msg png_path));
    [|destruct (stdout_error fs usage_msg)];
    repeat split; apply not_found_msg_distinct.
Qed.

(** C4 as amended: when the source cannot be decoded (opening it,
    converting it to RGBA or, for a lazily read file, a resize raises an
    error [e]), the encoder is not called and the file system is as before;
    on a standard output that takes the failure line, [create_icon] prints
    that one line with [str(e)] and returns [False], the plain boolean of
    every other failure. *)
Theorem C4_decode_failure_returns_false_without_writing
    (png_path ico_path : string) (fs : FS) (e : Error) :
  decoding_fails fs png_path e ->
  let r := create_icon png_path ico_path fs in
  save_calls (res_trace r) = [] /\
  res_fs r = fs /\
  (stdout_error fs (icon_error_msg e) = None ->
   res_val r = Ret false /\
   printed (res_trace r) = [icon_error_msg e]).
Proof.
  intros Hfails r. subst r. rewrite create_icon_handled.
  assert (Hbody : exists tr,
             create_icon_body png_path ico_path fs = mkRes fs tr (Raise (Exc e))
             /\ save_calls tr = [] /\ printed tr = []).
  { destruct Hfails as [Hnorm | (src & done & size & todo & vs & Hnorm & Hs
                                 & Hvs & He)];
      body_cases png_path ico_path fs;
      rewrite Hnorm in Hn'; try discriminate Hn'; injection Hn' as <-;
      try (exfalso; rewrite Hs in Hvs'; eapply resized_no_error; eassumption).
    - eexists. split; [reflexivity|].
      split; [apply save_calls_decode | apply printed_decode].
    - rewrite Hs in Hs'.
      destruct (first_failure_unique src done done' size size' todo todo'
                  vs vs' e e' Hs' Hvs He Hvs' He') as (<- & <- & <-).
      assert (e' = e) by congruence. subst e'.
      eexists. split; [reflexivity|].
      rewrite save_calls_app, save_calls_decode, save_calls_resize_events.
      rewrite printed_app, printed_decode, printed_resize_events.
      split; reflexivity. }
  destruct Hbody as (tr & -> & Hsave & Hprinted).
  rewrite handler_run_raise.
  destruct (stdout_error fs (icon_error_msg e)) as [e1|];
    cbn [res_fs res_trace res_val].
  - split; [exact Hsave|]. split; [reflexivity|]. discriminate.
  - rewrite save_calls_app, printed_app, Hsave, Hprinted.
    repeat split.
Qed.



(** C7: the exit status of the script is 0 or 1; it is 0 exactly when
    Pillow was imported, the source exists and [create_icon] returned
    [True]; so it is 1 when the import fails, when the source is missing and
    when [create_icon] returned [False] (decode and encode errors). *)
Theorem C7_exit_code_zero_iff_success
    (file : string) (argv : list string) (fs : FS) :
  let status := exit_code (res_val (script file argv fs)) in
  (status = 0%Z \/ status = 1%Z) /\
  (status = 0%Z <-> conversion_succeeds file argv fs) /\
  (forall e, import_PIL fs = inl e -> status = 1%Z) /\
  (forall png_path ico_path,
      import_PIL fs = inr tt ->
      res_val (main_paths file argv fs) = Ret (png_path, ico_path) ->
      (path_exists fs png_path = inr false -> status = 1%Z) /\
      (res_val (create_icon (path_str png_path) (path_str ico_path) fs)
       = Ret false -> status = 1%Z)).
Proof.
  intros status. unfold conversion_succeeds.
  destruct (main_paths_run file argv fs) as (png & ico & Hpaths).
  assert (Hp : res_val (main_paths file argv fs) = Ret (png, ico))
    by (rewrite Hpaths; reflexivity).
  destruct (import_PIL fs) as [e|[]] eqn:Himport.
  - assert (Hs : status = 1%Z).
    { subst status. rewrite (script_import_error _ _ _ e Himport).
      destruct (isinstance_ImportError e); [|reflexivity].
      destruct (stdout_error fs "Error: Pillow library not found");
        [reflexivity|].
      destruct (stdout_error fs "Install with: pip install Pillow");
        reflexivity. }
    rewrite Hs. split; [right; reflexivity|]. split; [|split].
    + split; [discriminate | intros [H _]; discriminate H].
    + reflexivity.
    + intros ? ? H. discriminate H.
  - assert (Hscript : status = exit_code (res_val (main_run png ico fs))).
    { subst status. rewrite (script_import_ok _ _ _ Himport).
      rewrite (main_unfold _ _ _ _ _ Hp). reflexivity. }
    destruct (main_run_exit png ico fs) as (_ & H01 & Hzero).
    rewrite <- Hscript in H01, Hzero.
    split; [exact H01|]. split; [|split].
    + rewrite Hzero. split.
      * intros (Hex & Hout & Htrue). split; [reflexivity|].
        exists png, ico. repeat split; assumption.
      * intros (_ & p & i & Hpi & Hex & Hout & Htrue).
        rewrite Hp in Hpi. injection Hpi as <- <-.
        repeat split; assumption.
    + intros ? H. discriminate H.
    + intros p i _ Hpi. rewrite Hp in Hpi. injection Hpi as <- <-.
      split.
      * intros Hmiss. destruct H01 as [H0 | H1]; [|exact H1].
        apply Hzero in H0. destruct H0 as (Hex & _).
        rewrite Hmiss in Hex. discriminate Hex.
      * intros Hfalse. destruct H01 as [H0 | H1]; [|exact H1].
        apply Hzero in H0. destruct H0 as (_ & _ & Htrue).
        rewrite Hfalse in Htrue. discriminate Htrue.
Qed.

(** ** The command line *)

Lemma main_paths_no_argument (file script_name : string) (fs : FS) :
  main_paths file [script_name] fs
  = mkRes fs [] (Ret (default_png file, default_ico file)).
Proof. reflexivity. Qed.

Lemma main_paths_one_argument (file script_name a : string) (fs : FS) :
  main_paths file [script_name; a] fs
  = mkRes fs [] (Ret (Path_of a, default_ico file)).
Proof. reflexivity. Qed.

Lemma main_paths_two_or_more (file script_name a b : string)
    (extra : list string) (fs : FS) :
  main_paths file (script_name :: a :: b :: extra) fs
  = mkRes fs [] (Ret (Path_of a, Path_of b)).
Proof. reflexivity. Qed.

Lemma removelast_two {A} (l : list A) (x y : A) :
  removelast (removelast (l ++ [x; y])) = l.
Proof.
  rewrite (removelast_app l (l' := [x; y])) by discriminate.
  simpl removelast at 2.
  rewrite (removelast_app l (l' := [x])) by discriminate.
  simpl. apply app_nil_r.
Qed.

(** C8: without positional arguments both paths are the defaults,
    [assets/app-logo-color.png] and [assets/app-icon.ico] under the project
    root; one argument replaces the source only; two arguments replace the
    source and the destination.  [main] then runs on the paths selected. *)
Theorem C8_positional_arguments_select_the_paths
    (file script_name a b : string) (fs : FS) :
  (res_val (main_paths file [script_name] fs)
   = Ret (default_png file, default_ico file) /\
   main file [script_name] fs
   = main_run (default_png file) (default_ico file) fs) /\
  (res_val (main_paths file [script_name; a] fs)
   = Ret (Path_of a, default_ico file) /\
   main file [script_name; a] fs = main_run (Path_of a) (default_ico file) fs) /\
  (res_val (main_paths file [script_name; a; b] fs)
   = Ret (Path_of a, Path_of b) /\
   main file [script_name; a; b] fs = main_run (Path_of a) (Path_of b) fs) /\
  default_png file
  = mkPath (anchor (project_root file))
           (parts (project_root file) ++ ["assets"; "app-logo-color.png"]) /\
  default_ico file
  = mkPath (anchor (project_root file))
           (parts (project_root file) ++ ["assets"; "app-icon.ico"]).
Proof.
  split; [|split; [|split; [|split]]].
  - split; [reflexivity|]. apply main_unfold. reflexivity.
  - split; [reflexivity|]. apply main_unfold. reflexivity.
  - split; [reflexivity|]. apply main_unfold. reflexivity.
  - unfold default_png, joinpath. simpl. rewrite <- app_assoc. reflexivity.
  - unfold default_ico, joinpath. simpl. rewrite <- app_assoc. reflexivity.
Qed.

(** C9: when the path of the script has a directory [d] and a file name
    [f] as its last two components, the project root is the path without
    them, two parent steps above the script file, and a run without arguments
    takes [assets/app-logo-color.png] and [assets/app-icon.ico] under that
    root. *)
Theorem C9_defaults_two_parents_above_the_script
    (file script_name : string) (fs : FS)
    (a : string) (ds : list string) (d f : string) :
  Path_of file = mkPath a (ds ++ [d; f]) ->
  project_root file = parent (parent (Path_of file)) /\
  project_root file = mkPath a ds /\
  res_val (main_paths file [script_name] fs)
  = Ret (mkPath a (ds ++ ["assets"; "app-logo-color.png"]),
         mkPath a (ds ++ ["assets"; "app-icon.ico"])).
Proof.
  intros Hfile.
  assert (Hroot : project_root file = mkPath a ds).
  { unfold project_root, parent. rewrite Hfile. simpl.
    rewrite removelast_two. reflexivity. }
  split; [reflexivity|]. split; [exact Hroot|].
  rewrite main_paths_no_argument. simpl.
  unfold default_png, default_ico, joinpath. rewrite Hroot. simpl.
  rewrite <- !app_assoc. reflexivity.
Qed.

(** C10: positional arguments after the second are ignored: the run of
    [main], and of the whole script, with further arguments is the run with
    the first two alone (same events and printed lines, same file system,
    same exit). *)
Theorem C10_extra_arguments_are_ignored
    (file script_name a b : string) (extra : list string) (fs : FS) :
  main_paths file (script_name :: a :: b :: extra) fs
  = main_paths file [script_name; a; b] fs /\
  main file (script_name :: a :: b :: extra) fs
  = main file [script_name; a; b] fs /\
  script file (script_name :: a :: b :: extra) fs
  = script file [script_name; a; b] fs.
Proof.
  assert (Hmain : forall fs', main file (script_name :: a :: b :: extra) fs'
                              = main file [script_name; a; b] fs').
  { intros fs'.
    rewrite (main_unfold file (script_name :: a :: b :: extra) fs'
               (Path_of a) (Path_of b)) by reflexivity.
    rewrite (main_unfold file [script_name; a; b] fs'
               (Path_of a) (Path_of b)) by reflexivity.
    reflexivity. }
  split; [reflexivity|]. split; [apply Hmain|].
  unfold script, bind.
  destruct (res_val (try_except_ImportError _ _ fs)); [|reflexivity].
  rewrite Hmain. reflexivity.
Qed.

(** ** The stages of [create_icon] *)

(** X1: an image opened in mode RGBA is not converted: no convert call is
    made and it is itself the source of the resizes; an image of any other
    mode is converted exactly once, to RGBA. *)
Theorem X1_conversion_only_when_not_rgba
    (png_path ico_path : string) (fs : FS) (img : Image) :
  Image_open fs png_path = inr img ->
  let r := create_icon png_path ico_path fs in
  (im_mode img = "RGBA" ->
   convert_calls (res_trace r) = [] /\
   normalized_source fs png_path = inr img) /\
  (im_mode img <> "RGBA" ->
   convert_calls (res_trace r) = [(img, "RGBA")] /\
   normalized_source fs png_path = Image_convert img "RGBA").
Proof.
  intros Hopen r.
  assert (Hconv : convert_calls (res_trace r)
                  = convert_calls (decode_events fs png_path)).
  { subst r. rewrite create_icon_handled. unfold convert_calls at 1.
    rewrite handler_run_view by reflexivity.
    fold (convert_calls (res_trace (create_icon_body png_path ico_path fs))).
    body_cases png_path ico_path fs; cbn [res_trace];
      rewrite ?convert_calls_encode, ?convert_calls_app,
        ?convert_calls_resize_events;
      try (unfold convert_calls at 2; rewrite flat_map_prints by reflexivity);
      rewrite ?app_nil_r; reflexivity. }
  rewrite Hconv. unfold decode_events, normalized_source. rewrite Hopen.
  split; intros Hmode.
  - rewrite Hmode. simpl. split; reflexivity.
  - apply String.eqb_neq in Hmode. rewrite Hmode. simpl. split; reflexivity.
Qed.

(** X2: when the resize to some size raises, the loop stops there: the
    sizes before it and that size have been tried, none after it; the
    encoder is not called and the file system is as before; on a standard
    output that takes the failure line, that line is the one line printed and
    the result is [False]. *)
Theorem X2_resize_failure_stops_the_pipeline
    (png_path ico_path : string) (fs : FS) (src : Image)
    (done : list (Z * Z)) (size : Z * Z) (todo : list (Z * Z))
    (vs : list Image) (e : Error) :
  normalized_source fs png_path = inr src ->
  sizes = (done ++ size :: todo)%list ->
  Forall2 (resized src) done vs ->
  Image_resize src size LANCZOS = inl e ->
  let r := create_icon png_path ico_path fs in
  resize_calls (res_trace r)
  = map (fun s => (src, s, LANCZOS)) (done ++ [size])%list /\
  save_calls (res_trace r) = [] /\
  res_fs r = fs /\
  (stdout_error fs (icon_error_msg e) = None ->
   res_val r = Ret false /\
   printed (res_trace r) = [icon_error_msg e]).
Proof.
  intros Hnorm Hsizes Hvs He r. subst r. rewrite create_icon_handled.
  assert (Hbody : create_icon_body png_path ico_path fs
                  = mkRes fs
                      (decode_events fs png_path
                       ++ resize_events src (done ++ [size]))%list
                      (Raise (Exc e))).
  { body_cases png_path ico_path fs;
      rewrite Hnorm in Hn'; try discriminate Hn'; injection Hn' as <-;
      try (exfalso; rewrite Hsizes in Hvs'; eapply resized_no_error;
           eassumption).
    rewrite Hsizes in Hs'.
    destruct (first_failure_unique src done done' size size' todo todo'
                vs vs' e e' Hs' Hvs He Hvs' He') as (<- & <- & <-).
    assert (e' = e) by congruence. subst e'. reflexivity. }
  rewrite Hbody, handler_run_raise.
  assert (Hr : resize_calls (decode_events fs png_path
                             ++ resize_events src (done ++ [size]))
               = map (fun s => (src, s, LANCZOS)) (done ++ [size])%list)
    by (rewrite resize_calls_app, resize_calls_decode,
          resize_calls_resize_events; reflexivity).
  assert (Hs : save_calls (decode_events fs png_path
                           ++ resize_events src (done ++ [size])) = [])
    by (rewrite save_calls_app, save_calls_decode, save_calls_resize_events;
        reflexivity).
  assert (Hp : printed (decode_events fs png_path
                        ++ resize_events src (done ++ [size])) = [])
    by (rewrite printed_app, printed_decode, printed_resize_events;
        reflexivity).
  destruct (stdout_error fs (icon_error_msg e)) as [e1|];
    cbn [res_fs res_trace res_val].
  - repeat (split; [assumption || reflexivity|]). discriminate.
  - rewrite resize_calls_app, save_calls_app, printed_app, Hr, Hs, Hp.
    cbn. rewrite app_nil_r. repeat split.
Qed.

(** X3: when the save raises, the size of the file is not asked for and
    the file system is the one the failed save left behind: nothing is
    cleaned up.  On a standard output that takes the failure line, the result
    is [False] and that line is the only line printed: no success line. *)
Theorem X3_save_failure_is_reported_and_not_cleaned_up
    (png_path ico_path : string) (fs fs' : FS) (src primary : Image)
    (rest : list Image) (e : Error) :
  normalized_source fs png_path = inr src ->
  Forall2 (resized src) sizes (primary :: rest) ->
  Image_save fs primary ico_path "ICO" sizes rest = (fs', Some e) ->
  let r := create_icon png_path ico_path fs in
  stat_calls (res_trace r) = [] /\
  res_fs r = fs' /\
  (stdout_error fs' (icon_error_msg e) = None ->
   res_val r = Ret false /\
   printed (res_trace r) = [icon_error_msg e]).
Proof.
  intros Hnorm Hvs Hsave r. subst r. rewrite create_icon_handled.
  assert (Hbody : create_icon_body png_path ico_path fs
                  = mkRes fs'
                      (encode_events fs png_path ico_path src primary rest [])
                      (Raise (Exc e))).
  { body_cases png_path ico_path fs;
      rewrite Hnorm in Hn'; try discriminate Hn'; injection Hn' as <-;
      try (exfalso; rewrite Hs' in Hvs; eapply resized_no_error; eassumption);
      pose proof (resized_functional src sizes _ _ Hvs Hvs') as Hsame;
      injection Hsame as <- <-;
      rewrite Hsave in Hsave'; try discriminate Hsave'.
    injection Hsave' as <- <-. reflexivity. }
  rewrite Hbody, handler_run_raise.
  destruct (stdout_error fs' (icon_error_msg e)) as [e1|];
    cbn [res_fs res_trace res_val].
  - rewrite stat_calls_encode. repeat (split; [reflexivity|]). discriminate.
  - rewrite stat_calls_app, printed_app, stat_calls_encode, printed_encode.
    repeat split.
Qed.

(** X4: when the save succeeds, the two success lines are printed and the
    size of the written file cannot be read, the run has already announced
    success and the written file stays; on a standard output that takes the
    failure line, the run prints the two success lines, then the failure
    line, and returns [False]. *)
Theorem X4_stat_failure_after_a_successful_save
    (png_path ico_path : string) (fs fs' : FS) (src primary : Image)
    (rest : list Image) (e : Error) :
  normalized_source fs png_path = inr src ->
  Forall2 (resized src) sizes (primary :: rest) ->
  Image_save fs primary ico_path "ICO" sizes rest = (fs', None) ->
  stdout_accepts fs' (success_printed ico_path) = true ->
  path_stat_size fs' (Path_of ico_path) = inl e ->
  let r := create_icon png_path ico_path fs in
  save_calls (res_trace r) = [(primary, ico_path, "ICO", sizes, rest)] /\
  res_fs r = fs' /\
  (stdout_error fs' (icon_error_msg e) = None ->
   res_val r = Ret false /\
   printed (res_trace r) = (success_printed ico_path ++ [icon_error_msg e])%list).
Proof.
  intros Hnorm Hvs Hsave Hout Hstat r. subst r. rewrite create_icon_handled.
  assert (Hbody : create_icon_body png_path ico_path fs
                  = mkRes fs'
                      (encode_events fs png_path ico_path src primary rest
                         (success_lines ico_path
                          ++ [EvStat (Path_of ico_path)]))
                      (Raise (Exc e))).
  { body_cases png_path ico_path fs;
      rewrite Hnorm in Hn'; try discriminate Hn'; injection Hn' as <-;
      try (exfalso; rewrite Hs' in Hvs; eapply resized_no_error; eassumption);
      pose proof (resized_functional src sizes _ _ Hvs Hvs') as Hsame;
      injection Hsame as <- <-;
      rewrite Hsave in Hsave'; try discriminate Hsave';
      injection Hsave' as <-.
    - exfalso.
      change (success_printed ico_path) with (success_text ico_path) in Hout.
      rewrite Htext' in Hout. unfold stdout_accepts in Hout.
      rewrite forallb_app in Hout. apply andb_true_iff in Hout.
      destruct Hout as [_ Hout]. cbn [forallb] in Hout.
      rewrite Hline' in Hout. discriminate Hout.
    - rewrite Hstat in Hstat'. injection Hstat' as <-. reflexivity.
    - rewrite Hstat in Hstat'. discriminate Hstat'.
    - rewrite Hstat in Hstat'. discriminate Hstat'. }
  rewrite Hbody, handler_run_raise.
  destruct (stdout_error fs' (icon_error_msg e)) as [e1|];
    cbn [res_fs res_trace res_val].
  - rewrite save_calls_encode. repeat (split; [reflexivity|]). discriminate.
  - rewrite save_calls_app, printed_app, save_calls_encode, printed_encode.
    repeat split.
Qed.

(** X5: whatever happens, [create_icon] calls the encoder at most once, and
    only with all six variants (a primary image and five more); a run without
    a save call leaves the file system as it was, and a run with one leaves
    it as the save did. *)
Theorem X5_encoder_gets_all_variants_or_is_not_called
    (png_path ico_path : string) (fs : FS) :
  let r := create_icon png_path ico_path fs in
  (save_calls (res_trace r) = [] /\ res_fs r = fs) \/
  (exists src primary rest,
      normalized_source fs png_path = inr src /\
      Forall2 (resized src) sizes (primary :: rest) /\
      length rest = 5%nat /\
      save_calls (res_trace r) = [(primary, ico_path, "ICO", sizes, rest)] /\
      res_fs r = fst (Image_save fs primary ico_path "ICO" sizes rest)).
Proof.
  intros r. subst r. rewrite create_icon_handled, handler_run_fs.
  unfold save_calls. rewrite handler_run_view by reflexivity.
  fold (save_calls (res_trace (create_icon_body png_path ico_path fs))).
  assert (Hfive : forall src primary rest,
             Forall2 (resized src) sizes (primary :: rest) ->
             length rest = 5%nat).
  { intros src primary rest H. apply Forall2_length in H.
    simpl in H. injection H as H. symmetry. exact H. }
  body_cases png_path ico_path fs; cbn [res_val res_trace res_fs];
    try (right; exists src', primary', rest';
         rewrite save_calls_encode, Hsave';
         split; [assumption|]; split; [assumption|];
         split; [eapply Hfive; eassumption|]; split; [|reflexivity]).
  - left. rewrite save_calls_decode. split; reflexivity.
  - left.
    rewrite !save_calls_app, save_calls_decode, save_calls_resize_events.
    split; reflexivity.
  - reflexivity.
  - unfold save_calls at 1. rewrite flat_map_prints by reflexivity.
    reflexivity.
  - reflexivity.
  - reflexivity.
  - reflexivity.
Qed.

(** X6: a run of [create_icon] returns [True], or one of its stages raised
    an error [e]: decoding, a resize to one of the six sizes, the save, the
    printing of a success line, the size query, or the printing of the size
    line.  Then, if standard output takes the failure line for [e], that line
    is printed last and the result is [False]; if not, the error of that
    print leaves [create_icon].  The script's own indexing of the list of
    variants is never the cause. *)
Theorem X6_every_failure_has_a_stage
    (png_path ico_path : string) (fs : FS) :
  let r := create_icon png_path ico_path fs in
  res_val r = Ret true \/
  exists e,
    (normalized_source fs png_path = inl e \/
     exists src,
       normalized_source fs png_path = inr src /\
       ((exists size, In size sizes /\ Image_resize src size LANCZOS = inl e) \/
        (exists primary rest,
            Forall2 (resized src) sizes (primary :: rest) /\
            (snd (Image_save fs primary ico_path "ICO" sizes rest) = Some e \/
             (snd (Image_save fs primary ico_path "ICO" sizes rest) = None /\
              ((exists line,
                   In line (success_text ico_path) /\
                   stdout_error (res_fs r) line = Some e) \/
               path_stat_size (res_fs r) (Path_of ico_path) = inl e \/
               (exists st_size,
                   path_stat_size (res_fs r) (Path_of ico_path) = inr st_size /\
                   stdout_error (res_fs r) (size_line st_size) = Some e))))))) /\
    match stdout_error (res_fs r) (icon_error_msg e) with
    | None =>
        res_val r = Ret false /\
        exists before,
          res_trace r = (before ++ [EvPrint (icon_error_msg e)])%list
    | Some e' => res_val r = Raise (Exc e')
    end.
Proof.
  intros r. subst r. rewrite create_icon_handled, handler_run_fs.
  body_cases png_path ico_path fs; cbn [res_fs];
    try (right; exists e'; rewrite handler_run_raise;
         split;
         [|destruct (stdout_error _ (icon_error_msg e'));
           cbn [res_val res_trace]; [reflexivity | split; eauto]]).
  - left. assumption.
  - right. exists src'. split; [assumption|]. left.
    exists size'. split; [|assumption].
    rewrite Hs'. apply in_or_app. right. left. reflexivity.
  - right. exists src'. split; [assumption|]. right.
    exists primary', rest'. split; [assumption|]. left.
    rewrite Hsave'. reflexivity.
  - right. exists src'. split; [assumption|]. right.
    exists primary', rest'. split; [assumption|]. right.
    rewrite Hsave'. split; [reflexivity|]. left.
    exists line'. split; [|assumption].
    rewrite Htext'. apply in_or_app. right. left. reflexivity.
  - right. exists src'. split; [assumption|]. right.
    exists primary', rest'. split; [assumption|]. right.
    rewrite Hsave'. split; [reflexivity|]. right. left. assumption.
  - right. exists src'. split; [assumption|]. right.
    exists primary', rest'. split; [assumption|]. right.
    rewrite Hsave'. split; [reflexivity|]. right. right.
    exists n'. split; assumption.
  - left. reflexivity.
Qed.


(** ** [main] and the import guard *)


(** X9: when the selected source exists and the four header lines are
    printed, the run of [main] is the check and these lines, followed by the
    run of [create_icon] on the two paths as strings; the file system after
    [main] is the one after [create_icon], and the exit status is 0 for
    [True] and 1 for [False]. *)
Theorem X9_main_runs_create_icon_on_the_selected_paths
    (file : string) (argv : list string) (fs : FS) (png_path ico_path : Path) :
  res_val (main_paths file argv fs) = Ret (png_path, ico_path) ->
  path_exists fs png_path = inr true ->
  stdout_accepts fs (header_text png_path ico_path) = true ->
  let r := main file argv fs in
  let c := create_icon (path_str png_path) (path_str ico_path) fs in
  res_trace r = (header_events png_path ico_path ++ res_trace c)%list /\
  res_fs r = res_fs c /\
  (res_val c = Ret true -> res_val r = Raise (SystemExit 0)) /\
  (res_val c = Ret false -> res_val r = Raise (SystemExit 1)).
Proof.
  intros Hp Hex Hout r c. subst r c.
  rewrite (main_unfold _ _ _ _ _ Hp).
  destruct (create_icon_outcome (path_str png_path) (path_str ico_path) fs)
    as [[ok Hok] | [e Hraise]].
  - rewrite (main_run_found _ _ _ ok Hex Hout Hok).
    cbn [res_val res_trace res_fs].
    split; [reflexivity|]. split; [reflexivity|].
    rewrite Hok. split; intros H; injection H as ->; reflexivity.
  - rewrite (main_run_found_raise _ _ _ _ Hex Hout Hraise).
    cbn [res_val res_trace res_fs].
    split; [reflexivity|]. split; [reflexivity|].
    rewrite Hraise. split; intros H; discriminate H.
Qed.

(** X10: selecting the paths reads and prints nothing and never fails, for
    every argument list, the empty one included: the source is [argv[1]]
    when there is one and the default otherwise, the destination is [argv[2]]
    when there is one and the default otherwise. *)
Theorem X10_path_selection_for_every_argv
    (file : string) (argv : list string) (fs : FS) :
  main_paths file argv fs
  = mkRes fs []
      (Ret (match nth_error argv 1 with
            | Some a => Path_of a
            | None => default_png file
            end,
            match nth_error argv 2 with
            | Some b => Path_of b
            | None => default_ico file
            end)).
Proof. destruct argv as [|s [|a [|b extra]]]; reflexivity. Qed.

(** X11: a script path of at most two components has no directory two
    levels up: the project root is then the bare anchor (the current
    directory for a relative path, the root for an absolute one), and the
    defaults are [assets/app-logo-color.png] and [assets/app-icon.ico]
    directly under it. *)
Theorem X11_short_script_path_falls_back_to_the_anchor (file : string) :
  (length (parts (Path_of file)) <= 2)%nat ->
  project_root file = mkPath (anchor (Path_of file)) [] /\
  default_png file
  = mkPath (anchor (Path_of file)) ["assets"; "app-logo-color.png"] /\
  default_ico file
  = mkPath (anchor (Path_of file)) ["assets"; "app-icon.ico"].
Proof.
  intros Hlen.
  assert (Hroot : project_root file = mkPath (anchor (Path_of file)) []).
  { unfold project_root, parent.
    destruct (Path_of file) as [a [|x [|y [|z l]]]]; simpl in *;
      try reflexivity.
    lia. }
  unfold default_png, default_ico. rewrite Hroot.
  repeat split.
Qed.

(** X12: when the import of Pillow raises, [main] is not run, the file
    system is not touched and the exit status is 1.  An [ImportError] is
    answered, on a standard output that takes them, with the two lines of
    advice and [sys.exit(1)]; any other error is not caught by the guard: it
    escapes with nothing printed. *)
Theorem X12_import_guard
    (file : string) (argv : list string) (fs : FS) (e : Error) :
  import_PIL fs = inl e ->
  let r := script file argv fs in
  res_fs r = fs /\
  exit_code (res_val r) = 1%Z /\
  existsb (fun ev => match ev with EvExists _ => true | _ => false end)
          (res_trace r) = false /\
  (isinstance_ImportError e = true ->
   stdout_accepts fs ["Error: Pillow library not found";
                      "Install with: pip install Pillow"] = true ->
   res_trace r
   = [EvImport; EvPrint "Error: Pillow library not found";
      EvPrint "Install with: pip install Pillow"] /\
   res_val r = Raise (SystemExit 1)) /\
  (isinstance_ImportError e = false ->
   res_trace r = [EvImport] /\ res_val r = Raise (Exc e)).
Proof.
  intros Himport r. subst r.
  rewrite (script_import_error _ _ _ e Himport).
  unfold stdout_accepts. cbn [forallb].
  destruct (isinstance_ImportError e).
  - destruct (stdout_error fs "Error: Pillow library not found");
      [|destruct (stdout_error fs "Install with: pip install Pillow")];
      cbn [res_val res_trace res_fs];
      repeat (split; [reflexivity|]);
      (split; [|intros H; discriminate H]);
      intros _ H; try discriminate H; split; reflexivity.
  - cbn [res_val res_trace res_fs].
    repeat (split; [reflexivity|]).
    split; [intros H; discriminate H|].
    intros _. split; reflexivity.
Qed.

(** X14: [create_icon] never exits the interpreter and leaves a body that
    returns as it is.  An error [e] raised in the body is answered, when the
    failure line can be printed, with that line and [False]; so on a standard
    output that takes every line [create_icon] always returns a boolean. *)
Theorem X14_errors_are_caught_when_the_failure_line_prints
    (png_path ico_path : string) (fs : FS) :
  let body := create_icon_body png_path ico_path fs in
  let r := create_icon png_path ico_path fs in
  (forall code, res_val r <> Raise (SystemExit code)) /\
  (forall b, res_val body = Ret b -> r = body) /\
  (forall e,
      res_val body = Raise (Exc e) ->
      stdout_error (res_fs body) (icon_error_msg e) = None ->
      r = mkRes (res_fs body)
                (res_trace body ++ [EvPrint (icon_error_msg e)])%list
                (Ret false)) /\
  ((forall fs' line, stdout_error fs' line = None) ->
   exists b, res_val r = Ret b).
Proof.
  intros body r.
  assert (Hr : r = handler_run body) by apply create_icon_handled.
  split; [|split; [|split]].
  - intros code H.
    destruct (create_icon_outcome png_path ico_path fs) as [[b Hb] | [e He]];
      fold r in Hb || fold r in He; congruence.
  - intros b Hb. rewrite Hr. unfold handler_run. rewrite Hb. reflexivity.
  - intros e He Hout. rewrite Hr. unfold handler_run.
    rewrite He, Hout. reflexivity.
  - intros Hout.
    destruct (create_icon_outcome png_path ico_path fs) as [[b Hb] | [e He]];
      [exists b; exact Hb|].
    exfalso. fold r in He. rewrite Hr in He. unfold handler_run in He.
    destruct (res_val body) as [b|[e0|c]] eqn:Hbody.
    + rewrite Hbody in He. discriminate He.
    + rewrite Hout in He. discriminate He.
    + rewrite Hbody in He. discriminate He.
Qed.

End Properties.

(* ================================================================== *)
(** * Runs on the simulated platforms *)
(* ================================================================== *)

Section Simulated.
#[local] Existing Instance Sim.platform.

(** The simulated Pillow keeps the contracts. *)
Lemma sim_resize_contract : resize_contract.
Proof.
  intros im size resample r. simpl. unfold Sim.Image_resize.
  destruct ((0 <? fst size) && (0 <? snd size))%Z; intros H; inversion H.
  reflexivity.
Qed.

Lemma sim_convert_contract : convert_contract.
Proof. intros im m r H. inversion H. reflexivity. Qed.

Example sim_format_kb_rounds_half_to_even :
  map Sim.format_kb [0; 256; 768; 1024; 1331; 1536; 268902]%Z
  = ["0.0"; "0.2"; "0.8"; "1.0"; "1.3"; "1.5"; "262.6"].
Proof. reflexivity. Qed.

Example script_on_the_repository :
  printed (res_trace (script Sim.script_file [Sim.script_file] Sim.repo_fs))
  = ["🎨 Creating Windows icon...";
     "   Source: /repo/assets/app-logo-color.png";
     "   Output: /repo/assets/app-icon.ico";
     "";
     "✅ Icon created successfully: /repo/assets/app-icon.ico";
     "   Sizes included: 256x256, 128x128, 64x64, 48x48, 32x32, 16x16";
     "   File size: 262.6 KB"] /\
  exit_code (res_val (script Sim.script_file [Sim.script_file] Sim.repo_fs))
  = 0%Z.
Proof. split; reflexivity. Qed.

Example script_on_a_corrupt_logo :
  printed (res_trace (script Sim.script_file [Sim.script_file] Sim.corrupt_fs))
  = ["🎨 Creating Windows icon...";
     "   Source: /repo/assets/app-logo-color.png";
     "   Output: /repo/assets/app-icon.ico";
     "";
     "❌ Error creating icon: cannot identify image file '/repo/assets/app-logo-color.png'"] /\
  exit_code (res_val (script Sim.script_file [Sim.script_file] Sim.corrupt_fs))
  = 1%Z.
Proof. split; reflexivity. Qed.

Example script_on_a_read_only_disk :
  printed (res_trace (script Sim.script_file [Sim.script_file]
                        Sim.read_only_fs))
  = ["🎨 Creating Windows icon...";
     "   Source: /repo/assets/app-logo-color.png";
     "   Output: /repo/assets/app-icon.ico";
     "";
     "❌ Error creating icon: [Errno 13] Permission denied: '/repo/assets/app-icon.ico'"] /\
  exit_code (res_val (script Sim.script_file [Sim.script_file]
                        Sim.read_only_fs))
  = 1%Z.
Proof. split; reflexivity. Qed.

Example script_without_pillow :
  script Sim.script_file [Sim.script_file] Sim.no_pillow_fs
  = mkRes Sim.no_pillow_fs
      [EvImport; EvPrint "Error: Pillow library not found";
       EvPrint "Install with: pip install Pillow"]
      (Raise (SystemExit 1)).
Proof. reflexivity. Qed.

Example script_with_custom_paths :
  res_val (main_paths Sim.script_file
             [Sim.script_file; "art/logo.png"; "./out//app.ico"; "ignored"]
             Sim.repo_fs)
  = Ret (mkPath "" ["art"; "logo.png"], mkPath "" ["out"; "app.ico"]).
Proof. reflexivity. Qed.

(** The repository logo, an RGB image: converted once, resized six times. *)
Lemma C1_witness :
  normalized_source Sim.repo_fs Sim.logo = inr Sim.repo_source /\
  Forall2 (resized Sim.repo_source) sizes Sim.repo_variants /\
  im_mode Sim.repo_source = "RGBA" /\
  length Sim.repo_variants = 6%nat /\
  map im_size Sim.repo_variants
  = [(256, 256); (128, 128); (64, 64); (48, 48); (32, 32); (16, 16)]%Z /\
  resize_calls (res_trace (create_icon Sim.logo Sim.icon Sim.repo_fs))
  = map (fun size => (Sim.repo_source, size, LANCZOS)) sizes.
Proof.
  assert (Hn : normalized_source Sim.repo_fs Sim.logo = inr Sim.repo_source)
    by reflexivity.
  assert (Hv : Forall2 (resized Sim.repo_source) sizes Sim.repo_variants)
    by (repeat constructor).
  destruct (C1_six_variants_of_the_normalized_source (P := Sim.platform)
              Sim.logo Sim.icon Sim.repo_fs Sim.repo_source Sim.repo_variants
              sim_resize_contract sim_convert_contract Hn Hv)
    as (Hmode & Hcalls & Hlen & Hdims & _).
  repeat (split; [assumption|]). exact Hcalls.
Defined.

(** The run on the repository logo returns [True] and saves once. *)
Lemma C2_witness :
  res_val (create_icon Sim.logo Sim.icon Sim.repo_fs) = Ret true /\
  declared_sizes (res_trace (create_icon Sim.logo Sim.icon Sim.repo_fs))
  = [[(256, 256); (128, 128); (64, 64); (48, 48); (32, 32); (16, 16)]%Z] /\
  variant_dims (res_trace (create_icon Sim.logo Sim.icon Sim.repo_fs))
  = declared_sizes (res_trace (create_icon Sim.logo Sim.icon Sim.repo_fs)).
Proof.
  assert (Hret : res_val (create_icon Sim.logo Sim.icon Sim.repo_fs) = Ret true)
    by reflexivity.
  destruct (C2_encoder_called_once_with_all_variants (P := Sim.platform)
              Sim.logo Sim.icon Sim.repo_fs sim_resize_contract Hret)
    as (_ & Hdecl & Hvar & _).
  split; [exact Hret|]. split; [exact Hdecl | exact Hvar].
Defined.

(** A run without arguments on a file system without the logo. *)
Lemma C3_witness :
  res_val (main_paths Sim.script_file [Sim.script_file] Sim.empty_fs)
  = Ret (Path_of Sim.logo, Path_of Sim.icon) /\
  path_exists Sim.empty_fs (Path_of Sim.logo) = inr false /\
  main Sim.script_file [Sim.script_file] Sim.empty_fs
  = mkRes Sim.empty_fs
      [EvExists (Path_of Sim.logo);
       EvPrint (not_found_msg (Path_of Sim.logo));
       EvPrint usage_msg]
      (Raise (SystemExit 1)).
Proof.
  assert (Hp : res_val (main_paths Sim.script_file [Sim.script_file]
                          Sim.empty_fs)
               = Ret (Path_of Sim.logo, Path_of Sim.icon)) by reflexivity.
  assert (Hm : path_exists Sim.empty_fs (Path_of Sim.logo) = inr false)
    by reflexivity.
  split; [exact Hp|]. split; [exact Hm|].
  exact (proj1 (C3_missing_source_reported_before_decoding
                  (P := Sim.platform)
                  Sim.script_file [Sim.script_file] Sim.empty_fs
                  (Path_of Sim.logo) (Path_of Sim.icon) Hp Hm) eq_refl).
Defined.

(** C4 as stated does not hold.  The kinds are not in what [create_icon]
    gives back: a text file renamed [.png] fails in [Image.open], a read-only
    destination fails in [save], both are reported by the one line of the
    handler, and both runs return [False] and exit with status 1, so nothing
    computed from the returned value and the exit status tells [DecodeError]
    from [EncodeError]. *)
Lemma C4_counterexample_no_failure_kind :
  normalized_source Sim.corrupt_fs Sim.logo = inl Sim.cannot_identify /\
  (exists primary rest e,
      save_calls (res_trace (create_icon Sim.logo Sim.icon Sim.read_only_fs))
      = [(primary, Sim.icon, "ICO", sizes, rest)] /\
      Image_save Sim.read_only_fs primary Sim.icon "ICO" sizes rest
      = (Sim.read_only_fs, Some e)) /\
  (exists e1 e2,
      printed (res_trace (create_icon Sim.logo Sim.icon Sim.corrupt_fs))
      = [icon_error_msg e1] /\
      printed (res_trace (create_icon Sim.logo Sim.icon Sim.read_only_fs))
      = [icon_error_msg e2]) /\
  res_val (create_icon Sim.logo Sim.icon Sim.corrupt_fs) = Ret false /\
  res_val (create_icon Sim.logo Sim.icon Sim.read_only_fs) = Ret false /\
  exit_code (res_val (script Sim.script_file [Sim.script_file] Sim.corrupt_fs))
  = 1%Z /\
  exit_code (res_val (script Sim.script_file [Sim.script_file]
                        Sim.read_only_fs))
  = 1%Z /\
  ((exists kind_of : Outcome bool * Z -> FailureKind,
       kind_of
         (res_val (create_icon Sim.logo Sim.icon Sim.corrupt_fs),
          exit_code (res_val (script Sim.script_file [Sim.script_file]
                                Sim.corrupt_fs)))
       = DecodeError /\
       kind_of
         (res_val (create_icon Sim.logo Sim.icon Sim.read_only_fs),
          exit_code (res_val (script Sim.script_file [Sim.script_file]
                                Sim.read_only_fs)))
       = EncodeError)
   -> False).
Proof.
  split; [reflexivity|].
  split; [eexists _, _, _; split; reflexivity|].
  split; [eexists (mkError _ _), (mkError _ _); split; reflexivity|].
  split; [reflexivity|]. split; [reflexivity|].
  split; [reflexivity|]. split; [reflexivity|].
  intros (kind_of & Hd & He).
  vm_compute in Hd. vm_compute in He.
  rewrite Hd in He. discriminate He.
Qed.



(** The script at [/repo/scripts/create-icon.py] has [/repo] as its root. *)
Lemma C9_witness :
  Path_of Sim.script_file
  = mkPath "/" (["repo"] ++ ["scripts"; "create-icon.py"]) /\
  project_root Sim.script_file = mkPath "/" ["repo"] /\
  res_val (main_paths Sim.script_file [Sim.script_file] Sim.repo_fs)
  = Ret (mkPath "/" (["repo"] ++ ["assets"; "app-logo-color.png"]),
         mkPath "/" (["repo"] ++ ["assets"; "app-icon.ico"])).
Proof.
  assert (Hf : Path_of Sim.script_file
               = mkPath "/" (["repo"] ++ ["scripts"; "create-icon.py"]))
    by reflexivity.
  split; [exact Hf|].
  exact (proj2 (C9_defaults_two_parents_above_the_script (P := Sim.platform)
                  Sim.script_file Sim.script_file Sim.repo_fs
                  "/" ["repo"] "scripts" "create-icon.py" Hf)).
Defined.

(** The RGB logo of the repository is converted once; the RGBA logo of the
    read-only world is not converted. *)
Lemma X1_witness :
  Image_open Sim.repo_fs Sim.logo = inr (Sim.mkImage "RGB" (512, 512)%Z 3) /\
  convert_calls (res_trace (create_icon Sim.logo Sim.icon Sim.repo_fs))
  = [(Sim.mkImage "RGB" (512, 512)%Z 3, "RGBA")] /\
  Image_open Sim.read_only_fs Sim.logo
  = inr (Sim.mkImage "RGBA" (512, 512)%Z 4) /\
  convert_calls (res_trace (create_icon Sim.logo Sim.icon Sim.read_only_fs))
  = [].
Proof.
  assert (H1 : Image_open Sim.repo_fs Sim.logo
               = inr (Sim.mkImage "RGB" (512, 512)%Z 3)) by reflexivity.
  assert (H2 : Image_open Sim.read_only_fs Sim.logo
               = inr (Sim.mkImage "RGBA" (512, 512)%Z 4)) by reflexivity.
  split; [exact H1|]. split.
  - apply (X1_conversion_only_when_not_rgba (P := Sim.platform)
             Sim.logo Sim.icon Sim.repo_fs _ H1).
    discriminate.
  - split; [exact H2|].
    apply (X1_conversion_only_when_not_rgba (P := Sim.platform)
             Sim.logo Sim.icon Sim.read_only_fs _ H2).
    reflexivity.
Defined.

(** The save on the read-only file system. *)
Lemma X3_witness :
  normalized_source Sim.read_only_fs Sim.logo
  = inr (Sim.mkImage "RGBA" (512, 512)%Z 4) /\
  res_val (create_icon Sim.logo Sim.icon Sim.read_only_fs) = Ret false /\
  printed (res_trace (create_icon Sim.logo Sim.icon Sim.read_only_fs))
  = [icon_error_msg
       (mkError PermissionError
          "[Errno 13] Permission denied: '/repo/assets/app-icon.ico'")] /\
  stat_calls (res_trace (create_icon Sim.logo Sim.icon Sim.read_only_fs)) = [] /\
  res_fs (create_icon Sim.logo Sim.icon Sim.read_only_fs) = Sim.read_only_fs.
Proof.
  assert (Hn : normalized_source Sim.read_only_fs Sim.logo
               = inr (Sim.mkImage "RGBA" (512, 512)%Z 4)) by reflexivity.
  split; [exact Hn|].
  destruct (X3_save_failure_is_reported_and_not_cleaned_up
              (P := Sim.platform)
              Sim.logo Sim.icon Sim.read_only_fs Sim.read_only_fs
              (Sim.mkImage "RGBA" (512, 512)%Z 4)
              (Sim.mkImage "RGBA" (256, 256)%Z 4)
              (map (fun s => Sim.mkImage "RGBA" s 4) (skipn 1 sizes))
              (mkError PermissionError
                 "[Errno 13] Permission denied: '/repo/assets/app-icon.ico'")
              Hn ltac:(repeat constructor) eq_refl)
    as (Hstat & Hfs & Hout).
  destruct (Hout eq_refl) as [Hret Hprinted].
  split; [exact Hret|]. split; [exact Hprinted|].
  split; [exact Hstat | exact Hfs].
Defined.


(** The run of [main] without arguments on the repository. *)
Lemma X9_witness :
  res_val (main_paths Sim.script_file [Sim.script_file] Sim.repo_fs)
  = Ret (Path_of Sim.logo, Path_of Sim.icon) /\
  path_exists Sim.repo_fs (Path_of Sim.logo) = inr true /\
  stdout_accepts Sim.repo_fs
    (header_text (Path_of Sim.logo) (Path_of Sim.icon)) = true /\
  res_trace (main Sim.script_file [Sim.script_file] Sim.repo_fs)
  = (header_events (Path_of Sim.logo) (Path_of Sim.icon)
     ++ res_trace (create_icon Sim.logo Sim.icon Sim.repo_fs))%list /\
  res_val (main Sim.script_file [Sim.script_file] Sim.repo_fs)
  = Raise (SystemExit 0).
Proof.
  assert (Hp : res_val (main_paths Sim.script_file [Sim.script_file]
                          Sim.repo_fs)
               = Ret (Path_of Sim.logo, Path_of Sim.icon)) by reflexivity.
  assert (Hex : path_exists Sim.repo_fs (Path_of Sim.logo) = inr true)
    by reflexivity.
  assert (Hout : stdout_accepts Sim.repo_fs
                   (header_text (Path_of Sim.logo) (Path_of Sim.icon)) = true)
    by reflexivity.
  destruct (X9_main_runs_create_icon_on_the_selected_paths
              (P := Sim.platform)
              Sim.script_file [Sim.script_file] Sim.repo_fs
              (Path_of Sim.logo) (Path_of Sim.icon) Hp Hex Hout)
    as (Htrace & _ & Hzero & _).
  split; [exact Hp|]. split; [exact Hex|]. split; [exact Hout|].
  split; [exact Htrace|].
  apply Hzero. reflexivity.
Defined.

(** The script started as [python create-icon.py] from its own directory,
    with a relative [__file__]. *)
Lemma X11_witness :
  (length (parts (Path_of "create-icon.py")) <= 2)%nat /\
  project_root "create-icon.py" = mkPath "" [] /\
  default_png "create-icon.py" = mkPath "" ["assets"; "app-logo-color.png"] /\
  default_ico "create-icon.py" = mkPath "" ["assets"; "app-icon.ico"].
Proof.
  assert (Hlen : (length (parts (Path_of "create-icon.py")) <= 2)%nat)
    by (simpl; lia).
  split; [exact Hlen|].
  exact (X11_short_script_path_falls_back_to_the_anchor (P := Sim.platform)
           "create-icon.py" Hlen).
Defined.

End Simulated.

Section FaultyRuns.

(** On a standard output in a legacy encoding the script stops at its
    first line, outside any [try]. *)
Example script_on_a_legacy_stdout :
  script (P := Faulty.legacy_stdout) Sim.script_file [Sim.script_file]
    Sim.repo_fs
  = mkRes (P := Faulty.legacy_stdout) Sim.repo_fs
      [EvImport (P := Faulty.legacy_stdout);
       EvExists (P := Faulty.legacy_stdout)
         (mkPath "/" ["repo"; "assets"; "app-logo-color.png"])]
      (Raise (Exc Faulty.cannot_encode)).
Proof. reflexivity. Qed.

(** An existence check that the operating system refuses leaves [main]. *)
Example main_when_the_check_raises :
  res_val (main (P := Faulty.exists_fails) Sim.script_file [Sim.script_file]
             Sim.repo_fs)
  = Raise (Exc Faulty.name_too_long).
Proof. reflexivity. Qed.

(** A text file renamed [.png], and a file that opens but whose pixels
    cannot be read at the first resize. *)
Lemma C4_witness :
  (decoding_fails (P := Sim.platform) Sim.corrupt_fs Sim.logo
     Sim.cannot_identify /\
   res_val (create_icon (P := Sim.platform) Sim.logo Sim.icon Sim.corrupt_fs)
   = Ret false /\
   printed (res_trace (create_icon (P := Sim.platform) Sim.logo Sim.icon
                         Sim.corrupt_fs))
   = [icon_error_msg Sim.cannot_identify] /\
   res_fs (create_icon (P := Sim.platform) Sim.logo Sim.icon Sim.corrupt_fs)
   = Sim.corrupt_fs) /\
  (decoding_fails (P := Faulty.lazy_decode_fails) Sim.read_only_fs Sim.logo
     Faulty.truncated /\
   res_val (create_icon (P := Faulty.lazy_decode_fails) Sim.logo Sim.icon
              Sim.read_only_fs)
   = Ret false /\
   printed (res_trace (create_icon (P := Faulty.lazy_decode_fails)
                         Sim.logo Sim.icon Sim.read_only_fs))
   = [icon_error_msg Faulty.truncated] /\
   save_calls (res_trace (create_icon (P := Faulty.lazy_decode_fails)
                            Sim.logo Sim.icon Sim.read_only_fs))
   = []).
Proof.
  assert (H1 : decoding_fails (P := Sim.platform) Sim.corrupt_fs Sim.logo
                 Sim.cannot_identify) by (left; reflexivity).
  assert (H2 : decoding_fails (P := Faulty.lazy_decode_fails)
                 Sim.read_only_fs Sim.logo Faulty.truncated).
  { right.
    exists (Sim.mkImage "RGBA" (512, 512)%Z 4), [], (256, 256)%Z,
      (skipn 1 sizes), [].
    repeat split. constructor. }
  split.
  - destruct (C4_decode_failure_returns_false_without_writing
                (P := Sim.platform) Sim.logo Sim.icon Sim.corrupt_fs
                Sim.cannot_identify H1) as (_ & Hfs & Hout).
    destruct (Hout eq_refl) as [Hret Hprinted].
    repeat (split; [assumption|]). exact Hfs.
  - destruct (C4_decode_failure_returns_false_without_writing
                (P := Faulty.lazy_decode_fails) Sim.logo Sim.icon
                Sim.read_only_fs Faulty.truncated H2) as (Hsave & _ & Hout).
    destruct (Hout eq_refl) as [Hret Hprinted].
    repeat (split; [assumption|]). exact Hsave.
Defined.


(** The resize to 48x48 fails: three variants made, nothing saved. *)
Lemma X2_witness :
  normalized_source (P := Faulty.resize_fails) Sim.repo_fs Sim.logo
  = inr Sim.repo_source /\
  Image_resize (Platform := Faulty.resize_fails) Sim.repo_source (48, 48)%Z
               LANCZOS
  = inl Faulty.out_of_memory /\
  res_val (create_icon (P := Faulty.resize_fails) Sim.logo Sim.icon Sim.repo_fs)
  = Ret false /\
  resize_calls
    (res_trace (create_icon (P := Faulty.resize_fails)
                  Sim.logo Sim.icon Sim.repo_fs))
  = [(Sim.repo_source, (256, 256), LANCZOS);
     (Sim.repo_source, (128, 128), LANCZOS);
     (Sim.repo_source, (64, 64), LANCZOS);
     (Sim.repo_source, (48, 48), LANCZOS)]%Z /\
  save_calls
    (res_trace (create_icon (P := Faulty.resize_fails)
                  Sim.logo Sim.icon Sim.repo_fs))
  = [] /\
  res_fs (create_icon (P := Faulty.resize_fails) Sim.logo Sim.icon Sim.repo_fs)
  = Sim.repo_fs.
Proof.
  assert (Hn : normalized_source (P := Faulty.resize_fails)
                 Sim.repo_fs Sim.logo = inr Sim.repo_source) by reflexivity.
  assert (He : Image_resize (Platform := Faulty.resize_fails)
                 Sim.repo_source (48, 48)%Z LANCZOS
               = inl Faulty.out_of_memory) by reflexivity.
  destruct (X2_resize_failure_stops_the_pipeline (P := Faulty.resize_fails)
              Sim.logo Sim.icon Sim.repo_fs Sim.repo_source
              [(256, 256); (128, 128); (64, 64)]%Z (48, 48)%Z
              [(32, 32); (16, 16)]%Z
              (map (fun s => Sim.mkImage "RGBA" s 3)
                   [(256, 256); (128, 128); (64, 64)]%Z)
              Faulty.out_of_memory Hn eq_refl
              ltac:(repeat constructor) He)
    as (Hcalls & Hsave & Hfs & Hout).
  destruct (Hout eq_refl) as [Hret _].
  split; [exact Hn|]. split; [exact He|]. split; [exact Hret|].
  split; [exact Hcalls|]. split; [exact Hsave | exact Hfs].
Defined.

(** The icon is written and announced, then its size cannot be read. *)
Lemma X4_witness :
  Image_save (Platform := Faulty.stat_denied) Sim.repo_fs
    (Sim.mkImage "RGBA" (256, 256)%Z 3) Sim.icon "ICO" sizes
    (map (fun s => Sim.mkImage "RGBA" s 3) (skipn 1 sizes))
  = (Faulty.repo_fs_saved, None) /\
  res_val (create_icon (P := Faulty.stat_denied) Sim.logo Sim.icon Sim.repo_fs)
  = Ret false /\
  printed (res_trace (create_icon (P := Faulty.stat_denied)
                        Sim.logo Sim.icon Sim.repo_fs))
  = ["✅ Icon created successfully: /repo/assets/app-icon.ico";
     "   Sizes included: 256x256, 128x128, 64x64, 48x48, 32x32, 16x16";
     "❌ Error creating icon: [Errno 13] Permission denied"] /\
  res_fs (create_icon (P := Faulty.stat_denied) Sim.logo Sim.icon Sim.repo_fs)
  = Faulty.repo_fs_saved.
Proof.
  assert (Hsave : Image_save (Platform := Faulty.stat_denied) Sim.repo_fs
                    (Sim.mkImage "RGBA" (256, 256)%Z 3) Sim.icon "ICO" sizes
                    (map (fun s => Sim.mkImage "RGBA" s 3) (skipn 1 sizes))
                  = (Faulty.repo_fs_saved, None)) by reflexivity.
  destruct (X4_stat_failure_after_a_successful_save
              (P := Faulty.stat_denied)
              Sim.logo Sim.icon Sim.repo_fs Faulty.repo_fs_saved
              Sim.repo_source (Sim.mkImage "RGBA" (256, 256)%Z 3)
              (map (fun s => Sim.mkImage "RGBA" s 3) (skipn 1 sizes))
              Faulty.stat_denied_error
              eq_refl ltac:(repeat constructor) Hsave eq_refl eq_refl)
    as (_ & Hfs & Hout).
  destruct (Hout eq_refl) as [Hret Hprinted].
  split; [exact Hsave|]. split; [exact Hret|].
  split; [exact Hprinted | exact Hfs].
Defined.

(** Pillow missing, and Pillow present but broken. *)
Lemma X12_witness :
  (import_PIL (Platform := Sim.platform) Sim.no_pillow_fs
   = inl (mkError ModuleNotFoundError "No module named 'PIL'") /\
   res_val (script (P := Sim.platform) Sim.script_file [Sim.script_file]
              Sim.no_pillow_fs)
   = Raise (SystemExit 1)) /\
  (import_PIL (Platform := Faulty.import_breaks) Sim.repo_fs
   = inl Faulty.broken_install /\
   res_val (script (P := Faulty.import_breaks) Sim.script_file
              [Sim.script_file] Sim.repo_fs)
   = Raise (Exc Faulty.broken_install)).
Proof.
  assert (H1 : import_PIL (Platform := Sim.platform) Sim.no_pillow_fs
               = inl (mkError ModuleNotFoundError "No module named 'PIL'"))
    by reflexivity.
  assert (H2 : import_PIL (Platform := Faulty.import_breaks) Sim.repo_fs
               = inl Faulty.broken_install) by reflexivity.
  split; (split; [assumption|]).
  - destruct (X12_import_guard (P := Sim.platform)
                Sim.script_file [Sim.script_file] Sim.no_pillow_fs _ H1)
      as (_ & _ & _ & Himp & _).
    exact (proj2 (Himp eq_refl eq_refl)).
  - destruct (X12_import_guard (P := Faulty.import_breaks)
                Sim.script_file [Sim.script_file] Sim.repo_fs _ H2)
      as (_ & _ & _ & _ & Hother).
    exact (proj2 (Hother eq_refl)).
Defined.

End FaultyRuns.
